(** * GenAI Table Processing: the row/step pipeline, embedded and verified

    Shallow embedding of
      - [utils/prompt_helper.py]  ([replace_placeholders], [extract_placeholders]),
      - [services/processing.py]  ([OpenAIProcessingService]: constructor,
        [process_item], [estimate_cost]),
      - [app.py]                  ([process_dataframe]).

    Conventions of the embedding.
      - A Python [str] is a [string]; each [ascii] is one code point below
        256, so the character classes of [re] and [str.strip] are exact on
        every string of the model.
      - A Python [int] is a [Z]; a Python [float] result ([estimate_cost])
        is a binary64 [float] computed with the primitive IEEE operations.
      - A Python [dict] is an association list with distinct keys kept in
        insertion order.
      - The remote chat-completion endpoint is an oracle that answers a
        request given the requests made before it; every request is logged,
        so "no model call" is a statement about the log.
      - Exceptions are values of [exn]; code that may raise returns [res].
      - The progress bar and the status text of [process_dataframe] are
        display only and are left out; an error banner is recorded by the
        text of the exception it shows. *)

From Stdlib Require Import ZArith NArith Ascii String List Lia Bool.
From Stdlib Require Import Floats Uint63 DecimalString.
From stdpp Require Import base list strings.

Set Warnings "-inexact-float,-register-all".
Local Open Scope Z_scope.

(** ** Characters and text *)

Definition code (c : ascii) : N := N_of_ascii c.

Definition between (lo hi n : N) : bool := ((lo <=? n) && (n <=? hi))%N.

(** [\w] of [re] on a [str] pattern: alphanumeric code points and the
    underscore. *)
Definition is_word (c : ascii) : bool :=
  let n := code c in
  between 48 57 n || between 65 90 n || (n =? 95)%N || between 97 122 n
  || (n =? 170)%N || between 178 179 n || (n =? 181)%N || between 185 186 n
  || between 188 190 n || between 192 214 n || between 216 246 n
  || between 248 255 n.

(** The characters [str.strip()] removes. *)
Definition is_space (c : ascii) : bool :=
  let n := code c in
  between 9 13 n || between 28 32 n || (n =? 133)%N || (n =? 160)%N.

Definition ascii_eqb (a b : ascii) : bool := Ascii.eqb a b.

(** The double quote character. *)
Definition dquote : ascii := ascii_of_N 34.

Fixpoint starts_with (p s : string) : bool :=
  match p, s with
  | EmptyString, _ => true
  | String a p', String b s' => ascii_eqb a b && starts_with p' s'
  | String _ _, EmptyString => false
  end.

Fixpoint has_char (c : ascii) (s : string) : bool :=
  match s with
  | EmptyString => false
  | String a s' => ascii_eqb a c || has_char c s'
  end.

Fixpoint all_chars (p : ascii -> bool) (s : string) : bool :=
  match s with
  | EmptyString => true
  | String a s' => p a && all_chars p s'
  end.

(** [sub in s] for Python strings. *)
Fixpoint contains (sub s : string) : bool :=
  starts_with sub s ||
  match s with
  | EmptyString => false
  | String _ s' => contains sub s'
  end.

(** [sep.join(parts)] *)
Fixpoint join (sep : string) (parts : list string) : string :=
  match parts with
  | [] => EmptyString
  | [p] => p
  | p :: rest => p +:+ sep +:+ join sep rest
  end.

(** Longest prefix of word characters, and what follows it. *)
Fixpoint span_word (s : string) : string * string :=
  match s with
  | String a s' =>
      if is_word a then let '(w, r) := span_word s' in (String a w, r)
      else (EmptyString, s)
  | EmptyString => (EmptyString, EmptyString)
  end.

(** One attempt of the pattern [\{@(\w+)\}] at the start of [s]: the
    captured group when it matches.  [\w+] is greedy and the closing brace
    is not a word character, so the match, when there is one, takes the
    whole run of word characters. *)
Definition match_placeholder (s : string) : option string :=
  match s with
  | String a (String b s') =>
      if ascii_eqb a "{" && ascii_eqb b "@" then
        match span_word s' with
        | (String c w, String d _) =>
            if ascii_eqb d "}" then Some (String c w) else None
        | _ => None
        end
      else None
  | _ => None
  end.

(** [re.findall(r'\{@(\w+)\}', s)]: leftmost matches, not overlapping.
    [skip] counts the characters of the last match not yet passed. *)
Fixpoint findall_from (skip : nat) (s : string) : list string :=
  match s with
  | EmptyString => []
  | String _ s' =>
      match skip with
      | S k => findall_from k s'
      | O =>
          match match_placeholder s with
          | Some name => name :: findall_from (String.length name + 2) s'
          | None => findall_from 0 s'
          end
      end
  end.

(** [s.replace(old, new)] for a non-empty [old]: every leftmost occurrence,
    scanning on after the replaced text. *)
Fixpoint replace_from (old new : string) (skip : nat) (s : string) : string :=
  match s with
  | EmptyString => EmptyString
  | String a s' =>
      match skip with
      | S k => replace_from old new k s'
      | O =>
          if starts_with old s
          then new +:+ replace_from old new (String.length old - 1) s'
          else String a (replace_from old new 0 s')
      end
  end.

(** With an empty [old], Python inserts [new] before every character and at
    the end. *)
Fixpoint intersperse_before (new s : string) : string :=
  match s with
  | EmptyString => new
  | String a s' => new +:+ String a (intersperse_before new s')
  end.

Definition str_replace (s old new : string) : string :=
  match old with
  | EmptyString => intersperse_before new s
  | String _ _ => replace_from old new 0 s
  end.

(** [s.split(",")] *)
Fixpoint split_comma_acc (cur : string -> string) (s : string) : list string :=
  match s with
  | EmptyString => [cur EmptyString]
  | String a s' =>
      if ascii_eqb a ","
      then cur EmptyString :: split_comma_acc (fun x => x) s'
      else split_comma_acc (fun x => cur (String a x)) s'
  end.

Definition split_comma (s : string) : list string := split_comma_acc (fun x => x) s.

Fixpoint lstrip (s : string) : string :=
  match s with
  | String a s' => if is_space a then lstrip s' else s
  | EmptyString => EmptyString
  end.

(** [rstrip] keeps a character when it is not a space or when something
    that is kept follows it. *)
Fixpoint rstrip (s : string) : string :=
  match s with
  | EmptyString => EmptyString
  | String a s' =>
      match rstrip s' with
      | EmptyString => if is_space a then EmptyString else String a EmptyString
      | r => String a r
      end
  end.

Definition strip (s : string) : string := rstrip (lstrip s).

(** [str(n)] for an [int]. *)
Definition str_of_int (z : Z) : string := NilZero.string_of_int (Z.to_int z).

(** ** Python values *)

Inductive pyfloat : Type :=
| FNaN
| FInf
| FNegInf
| FLit (lit : string).   (* the float Python's [float()] makes of a decimal literal *)

Inductive value : Type :=
| VNone
| VBool (b : bool)
| VInt (z : Z)
| VFloat (f : pyfloat)
| VStr (s : string)
| VList (l : list value)
| VDict (d : list (string * value)).

(** A [dict] with string keys. *)
Definition pydict : Type := list (string * value).

Fixpoint dict_get (d : pydict) (k : string) : option value :=
  match d with
  | [] => None
  | (k', v) :: d' => if String.eqb k' k then Some v else dict_get d' k
  end.

(** [d[k] = v]: overwrite in place, or append a new key. *)
Fixpoint dict_set (d : pydict) (k : string) (v : value) : pydict :=
  match d with
  | [] => [(k, v)]
  | (k', v') :: d' =>
      if String.eqb k' k then (k', v) :: d' else (k', v') :: dict_set d' k v
  end.

(** [d.get(k, default)] *)
Definition dict_get_default (d : pydict) (k : string) (default : value) : value :=
  match dict_get d k with
  | Some v => v
  | None => default
  end.

Definition keys (d : pydict) : list string := map fst d.

(** ** [json.loads]

    The decoder of the standard library, as [process_item] calls it
    (default arguments: strict strings, [NaN], [Infinity] and [-Infinity]
    accepted).  Besides [JSONDecodeError] it can raise [RecursionError], when
    the text nests arrays and objects deeper than the interpreter allows, and
    [ValueError], when an integer has more digits than
    [sys.get_int_max_str_digits()].

    A [\uXXXX] escape that denotes a code point above 255 has no counterpart
    in the strings of this model.  Whether the text is accepted does not
    depend on the character an escape denotes, so the decoder is run twice:
    once with a stand-in character, to find the errors, and once without, to
    give the value, or [Unmodelled] when the value has such a character. *)

Record decoder : Type := mkDecoder {
  allow_constants : bool;       (* [NaN], [Infinity], [-Infinity] are read *)
  stand_in_escapes : bool;      (* an escape above 255 gives a stand-in character *)
  max_str_digits : nat          (* [sys.get_int_max_str_digits()]; 0 is no limit *)
}.

Inductive parsed (A : Type) : Type :=
| POk (a : A) (rest : string)
| PErr                          (* json.JSONDecodeError *)
| PRecursionError
| PValueError (msg : string)
| PUnmodelled.
Arguments POk {A} a rest.
Arguments PErr {A}.
Arguments PRecursionError {A}.
Arguments PValueError {A} msg.
Arguments PUnmodelled {A}.

Definition parsed_map {A B : Type} (f : A -> B) (p : parsed A) : parsed B :=
  match p with
  | POk a rest => POk (f a) rest
  | PErr => PErr
  | PRecursionError => PRecursionError
  | PValueError msg => PValueError msg
  | PUnmodelled => PUnmodelled
  end.

Definition is_json_ws (c : ascii) : bool :=
  let n := code c in (n =? 32)%N || (n =? 9)%N || (n =? 10)%N || (n =? 13)%N.

Fixpoint skip_ws (s : string) : string :=
  match s with
  | String a s' => if is_json_ws a then skip_ws s' else s
  | EmptyString => EmptyString
  end.

Definition is_digit (c : ascii) : bool := between 48 57 (code c).

Definition hex_value (c : ascii) : option N :=
  let n := code c in
  if between 48 57 n then Some (n - 48)%N
  else if between 97 102 n then Some (n - 87)%N
  else if between 65 70 n then Some (n - 55)%N
  else None.

Definition hex4 (a b c d : ascii) : option N :=
  match hex_value a, hex_value b, hex_value c, hex_value d with
  | Some x, Some y, Some z, Some w => Some (((x * 16 + y) * 16 + z) * 16 + w)%N
  | _, _, _, _ => None
  end.

(** The one-character escapes of a JSON string. *)
Definition simple_escape (c : ascii) : option ascii :=
  if ascii_eqb c dquote then Some dquote else
  match c with
  | "\"%char => Some "\"%char
  | "/"%char => Some "/"%char
  | "b"%char => Some (ascii_of_N 8)
  | "f"%char => Some (ascii_of_N 12)
  | "n"%char => Some (ascii_of_N 10)
  | "r"%char => Some (ascii_of_N 13)
  | "t"%char => Some (ascii_of_N 9)
  | _ => None
  end.

(** [scanstring]: the text after an opening quote, up to the closing one. *)
Fixpoint scanstring (o : decoder) (s : string) : parsed string :=
  match s with
  | EmptyString => PErr
  | String c s' =>
      if ascii_eqb c dquote then POk EmptyString s'
      else if ascii_eqb c "\" then
        match s' with
        | String "u" (String h1 (String h2 (String h3 (String h4 r)))) =>
            match hex4 h1 h2 h3 h4 with
            | Some n =>
                if (n <? 256)%N
                then parsed_map (String (ascii_of_N n)) (scanstring o r)
                else if stand_in_escapes o
                     then parsed_map (String "?") (scanstring o r)
                     else PUnmodelled
            | None => PErr
            end
        | String "u" _ => PErr
        | String e r =>
            match simple_escape e with
            | Some ch => parsed_map (String ch) (scanstring o r)
            | None => PErr
            end
        | EmptyString => PErr
        end
      else if (code c <? 32)%N then PErr
      else parsed_map (String c) (scanstring o s')
  end.

Fixpoint span_digits (s : string) : string * string :=
  match s with
  | String a s' =>
      if is_digit a then let '(w, r) := span_digits s' in (String a w, r)
      else (EmptyString, s)
  | EmptyString => (EmptyString, EmptyString)
  end.

Fixpoint digits_value (acc : Z) (s : string) : Z :=
  match s with
  | String a s' => digits_value (10 * acc + Z.of_N (code a - 48)) s'
  | EmptyString => acc
  end.

(** The number pattern of the decoder: an optional minus sign and either a
    single 0 or a non-zero digit followed by digits; then, optionally, a dot
    and at least one digit; then, optionally, e or E, an optional sign and at
    least one digit.  The optional groups are dropped when they do not
    match. *)
Definition scan_integer_part (s : string) : option (string * string) :=
  match s with
  | String a s' =>
      if ascii_eqb a "0" then Some ("0", s')
      else if is_digit a then let '(w, r) := span_digits s' in Some (String a w, r)
      else None
  | EmptyString => None
  end.

Definition scan_frac (s : string) : string * string :=
  match s with
  | String "." s' =>
      match span_digits s' with
      | (EmptyString, _) => (EmptyString, s)
      | (w, r) => (String "." w, r)
      end
  | _ => (EmptyString, s)
  end.

Definition scan_exp (s : string) : string * string :=
  match s with
  | String e s' =>
      if ascii_eqb e "e" || ascii_eqb e "E" then
        let '(sign, s'') :=
          match s' with
          | String "+" r => ("+", r)
          | String "-" r => ("-", r)
          | _ => (EmptyString, s')
          end in
        match span_digits s'' with
        | (EmptyString, _) => (EmptyString, s)
        | (w, r) => (String e (sign +:+ w), r)
        end
      else (EmptyString, s)
  | EmptyString => (EmptyString, s)
  end.

(** The text of the [ValueError] of [int] on too many digits. *)
Definition too_many_digits (limit digits : nat) : string :=
  "Exceeds the limit (" +:+ str_of_int (Z.of_nat limit)
    +:+ " digits) for integer string conversion: value has "
    +:+ str_of_int (Z.of_nat digits)
    +:+ " digits; use sys.set_int_max_str_digits() to increase the limit".

Inductive number_scan : Type :=
| NotANumber
| Number (v : value) (rest : string)
| TooManyDigits (msg : string).

(** [int] looks at the limit only for texts of more digits than this. *)
Definition max_str_digits_threshold : nat := 640.

(** A literal with a fraction or an exponent is read by [float], one without
    by [int], which refuses more digits than the limit; a limit of 0 is no
    limit. *)
Definition scan_number (o : decoder) (s : string) : number_scan :=
  let '(neg, s1) :=
    match s with
    | String "-" r => (true, r)
    | _ => (false, s)
    end in
  match scan_integer_part s1 with
  | None => NotANumber
  | Some (int_part, s2) =>
      let '(frac, s3) := scan_frac s2 in
      let '(exp, s4) := scan_exp s3 in
      match frac, exp with
      | EmptyString, EmptyString =>
          let digits := String.length int_part in
          if Nat.ltb max_str_digits_threshold digits
             && negb (Nat.eqb (max_str_digits o) 0) && Nat.ltb (max_str_digits o) digits
          then TooManyDigits (too_many_digits (max_str_digits o) digits)
          else
            let n := digits_value 0 int_part in
            Number (VInt (if neg then - n else n)) s4
      | _, _ =>
          Number (VFloat (FLit ((if neg then "-" else EmptyString)
                                  +:+ int_part +:+ frac +:+ exp))) s4
      end
  end.

Fixpoint drop_chars (n : nat) (s : string) : string :=
  match n, s with
  | S k, String _ s' => drop_chars k s'
  | _, _ => s
  end.

Definition scan_literal (o : decoder) (s : string) : parsed value :=
  if starts_with "null" s then POk VNone (drop_chars 4 s)
  else if starts_with "true" s then POk (VBool true) (drop_chars 4 s)
  else if starts_with "false" s then POk (VBool false) (drop_chars 5 s)
  else
    match scan_number o s with
    | Number v r => POk v r
    | TooManyDigits msg => PValueError msg
    | NotANumber =>
        if negb (allow_constants o) then PErr
        else if starts_with "NaN" s then POk (VFloat FNaN) (drop_chars 3 s)
        else if starts_with "Infinity" s then POk (VFloat FInf) (drop_chars 8 s)
        else if starts_with "-Infinity" s then POk (VFloat FNegInf) (drop_chars 9 s)
        else PErr
    end.

(** [scan_once], [JSONArray] and [JSONObject].  [depth] is the number of
    arrays and objects, one inside the other, that the decoder can still
    enter before the recursion limit of the interpreter is reached.  The
    fuel only makes the recursion structural; each call follows the
    consumption of a character, so [json_loads] below never exhausts it. *)
Fixpoint scan_once (o : decoder) (depth fuel : nat) (s : string) : parsed value :=
  match fuel with
  | O => PUnmodelled
  | S f =>
      match s with
      | EmptyString => PErr
      | String c s' =>
          if ascii_eqb c dquote then parsed_map VStr (scanstring o s')
          else if ascii_eqb c "{" then
            match depth with
            | O => PRecursionError
            | S d =>
                match skip_ws s' with
                | String "}" r => POk (VDict []) r
                | String q r =>
                    if ascii_eqb q dquote then parse_members o d f [] r else PErr
                | EmptyString => PErr
                end
            end
          else if ascii_eqb c "[" then
            match depth with
            | O => PRecursionError
            | S d =>
                match skip_ws s' with
                | String "]" r => POk (VList []) r
                | r => parse_elems o d f [] r
                end
            end
          else scan_literal o s
      end
  end

with parse_elems (o : decoder) (depth fuel : nat) (acc : list value) (s : string)
  : parsed value :=
  match fuel with
  | O => PUnmodelled
  | S f =>
      match scan_once o depth f s with
      | POk v r =>
          match skip_ws r with
          | String "]" r' => POk (VList (acc ++ [v])) r'
          | String "," r' => parse_elems o depth f (acc ++ [v]) (skip_ws r')
          | _ => PErr
          end
      | PErr => PErr
      | PRecursionError => PRecursionError
      | PValueError msg => PValueError msg
      | PUnmodelled => PUnmodelled
      end
  end

with parse_members (o : decoder) (depth fuel : nat) (acc : pydict) (s : string)
  : parsed value :=
  match fuel with
  | O => PUnmodelled
  | S f =>
      match scanstring o s with
      | POk key r =>
          match skip_ws r with
          | String ":" r1 =>
              match scan_once o depth f (skip_ws r1) with
              | POk v r2 =>
                  match skip_ws r2 with
                  | String "}" r3 => POk (VDict (dict_set acc key v)) r3
                  | String "," r3 =>
                      match skip_ws r3 with
                      | String q r4 =>
                          if ascii_eqb q dquote
                          then parse_members o depth f (dict_set acc key v) r4
                          else PErr
                      | EmptyString => PErr
                      end
                  | _ => PErr
                  end
              | PErr => PErr
              | PRecursionError => PRecursionError
              | PValueError msg => PValueError msg
              | PUnmodelled => PUnmodelled
              end
          | _ => PErr
          end
      | PErr => PErr
      | PRecursionError => PRecursionError
      | PValueError msg => PValueError msg
      | PUnmodelled => PUnmodelled
      end
  end.

Inductive loads_result : Type :=
| Loaded (v : value)
| JSONDecodeError
| LoadsRecursionError
| LoadsValueError (msg : string)
| Unmodelled.

(** [json.loads(s)] in an interpreter that leaves [depth] levels of nesting
    to the decoder and limits integers to [digits] digits. *)
Definition json_loads (depth digits : nat) (s : string) : loads_result :=
  let fuel := (2 * String.length s + 2)%nat in
  match scan_once (mkDecoder true true digits) depth fuel (skip_ws s) with
  | POk _ rest =>
      match skip_ws rest with
      | EmptyString =>
          match scan_once (mkDecoder true false digits) depth fuel (skip_ws s) with
          | POk v _ => Loaded v
          | _ => Unmodelled
          end
      | _ => JSONDecodeError
      end
  | PErr => JSONDecodeError
  | PRecursionError => LoadsRecursionError
  | PValueError msg => LoadsValueError msg
  | PUnmodelled => Unmodelled
  end.

(** "Valid JSON" in the words of the specification: a text of the JSON
    grammar, which has none of the three constants and no limit on nesting
    or on the length of a number. *)
Definition valid_json (s : string) : bool :=
  match scan_once (mkDecoder false true 0) (String.length s)
          (2 * String.length s + 2) (skip_ws s) with
  | POk _ rest =>
      match skip_ws rest with
      | EmptyString => true
      | _ => false
      end
  | _ => false
  end.

(** Text between double quotes, to write JSON samples. *)
Definition quoted (s : string) : string := String dquote (s +:+ String dquote EmptyString).

(** ** The table

    A [pandas.DataFrame] with a default integer index: the ordered column
    names and, per row, the mapping from column name to cell.  Cells are
    taken as Python objects; the numeric dtype conversions of pandas are not
    modelled. *)

Record DataFrame : Type := mkDataFrame {
  columns : list string;
  rows : list pydict
}.

(** [len(df)] *)
Definition df_len (df : DataFrame) : nat := length (rows df).

Definition NaN : value := VFloat FNaN.

(** [df.at[row_idx, col] = v].  A column that does not exist yet is added to
    the whole table, with [NaN] in every other row.  ([row_idx] is always a
    row of the table where the pipeline writes: the read of that row comes
    first.)  The write is the one pandas makes into a column of objects.
    Into an existing column of numbers, pandas 2 converts the column and
    pandas 3 raises [TypeError]; [accepts_text] below names the tables on
    which that does not arise. *)
Definition df_at_set (df : DataFrame) (row_idx : nat) (col : string) (v : value) : DataFrame :=
  if bool_decide (col ∈ columns df)
  then mkDataFrame (columns df)
         (imap (fun j r => if Nat.eqb j row_idx then dict_set r col v else r) (rows df))
  else mkDataFrame (columns df ++ [col])
         (imap (fun j r => dict_set r col (if Nat.eqb j row_idx then v else NaN)) (rows df)).

(** Whether column [c] has a text in some row: pandas then holds the column
    as objects, whatever its other cells are. *)
Definition holds_text (df : DataFrame) (c : string) : bool :=
  existsb (fun r => match dict_get r c with Some (VStr _) => true | _ => false end)
    (rows df).

(** Every column that a step can write, one whose name begins with [AI_],
    already holds a text.  The pipeline writes texts only, so this stays
    true from one write to the next. *)
Definition accepts_text (df : DataFrame) : bool :=
  forallb (fun c => negb (starts_with "AI_" c) || holds_text df c) (columns df).

(** ** Exceptions and results *)

Inductive exn : Type :=
| ValueError (msg : string)  (* the missing key; [int] on too many digits *)
| IndexError                 (* [df.iloc[i]] past the last row *)
| AttributeError             (* [.items()] on a reply that is not an object *)
| RecursionError             (* [json.loads] on a reply nested too deep *)
| APIError (e : string).     (* whatever the remote call raised *)

Inductive res (A : Type) : Type :=
| Ok (a : A)
| Raise (e : exn)
| OutOfModel.                (* a reply the decoder model does not cover *)
Arguments Ok {A} a.
Arguments Raise {A} e.
Arguments OutOfModel {A}.

(** ** The remote endpoint and the session *)

Record request : Type := mkRequest {
  req_model : string;
  req_system : string;
  req_user : string;
  req_response_format : string;
  req_temperature : float;
  req_max_tokens : Z
}.

(** An answer of the endpoint to a request: a completion with one choice
    whose content is a text, with its usage counts.  An answer without a
    text or without counts is not modelled. *)
Record completion : Type := mkCompletion {
  content : string;                 (* [choices[0].message.content] *)
  usage_prompt_tokens : Z;
  usage_completion_tokens : Z;
  usage_total_tokens : Z;
  completion_model : string
}.

Inductive remote_outcome : Type :=
| Completed (c : completion)
| Failed (e : string).

(** What [process_dataframe] writes of [st.session_state]. *)
Record session_state : Type := mkSession {
  total_tokens : Z * Z;             (* the "prompt" and "completion" entries *)
  estimated_cost : float
}.

Record world : Type := mkWorld {
  environ_api_key : option string;  (* [os.getenv("OPENAI_API_KEY")] *)
  session : session_state;
  request_log : list request;       (* the calls made to the endpoint, oldest first *)
  error_banners : list string       (* the messages passed to [st.error] *)
}.

(** Code that reads and writes the world and may raise. *)
Definition M (A : Type) : Type := world -> res A * world.

Definition ret {A : Type} (a : A) : M A := fun w => (Ok a, w).

Definition raise {A : Type} (e : exn) : M A := fun w => (Raise e, w).

Definition bind {A B : Type} (m : M A) (k : A -> M B) : M B :=
  fun w =>
    match m w with
    | (Ok a, w') => k a w'
    | (Raise e, w') => (Raise e, w')
    | (OutOfModel, w') => (OutOfModel, w')
    end.

Notation "'let*' x ':=' m 'in' k" := (bind m (fun x => k))
  (at level 10, x name, m at level 100, k at level 200).

(** [try: m  except ValueError as e: handler(str(e))] *)
Definition try_except_ValueError {A : Type} (m : M A) (handler : string -> M A) : M A :=
  fun w =>
    match m w with
    | (Raise (ValueError msg), w') => handler msg w'
    | other => other
    end.

(** ** [services/processing.py] *)

Record ProcessingResult : Type := mkProcessingResult {
  response : value;
  prompt_tokens : Z;
  completion_tokens : Z;
  total_tokens_used : Z;            (* the field [total_tokens] *)
  model : string
}.

Record OpenAIProcessingService : Type := mkService {
  api_key : string
}.

(** [x or y] on optional strings: the first operand when it is truthy. *)
Definition or_else (x y : option string) : option string :=
  match x with
  | Some (String a s) => Some (String a s)
  | _ => y
  end.

(** [OpenAIProcessingService.__init__] *)
Definition init (api_key_arg : option string) : M OpenAIProcessingService :=
  fun w =>
    match or_else api_key_arg (environ_api_key w) with
    | Some (String a s) => (Ok (mkService (String a s)), w)
    | _ => (Raise (ValueError "OPENAI_API_KEY not found in environment"), w)
    end.

Definition system_message : string :=
  "You are an AI assistant for data processing. 
You must respond with a valid JSON object containing the requested fields.
Do not include any text outside the JSON object.".

Definition newline : string := String (ascii_of_N 10) EmptyString.

Definition user_message (prompt : string) (output_fields : list string) : string :=
  let fields_description := join ", " (map quoted output_fields) in
  prompt +:+ newline +:+ newline
    +:+ "Respond with a JSON object containing these fields: " +:+ fields_description.

Definition build_request (prompt : string) (output_fields : list string) (model : string)
  : request :=
  mkRequest model system_message (user_message prompt output_fields)
            "json_object" 0.7%float 1000.

(** [float(n)] for an [int] below 2^53 in absolute value, where the
    conversion is exact. *)
Definition float_of_int (z : Z) : float :=
  if z <? 0 then PrimFloat.opp (PrimFloat.of_uint63 (Uint63.of_Z (- z)))
  else PrimFloat.of_uint63 (Uint63.of_Z z).

(** [n / 1000] on an [int]: true division.  For [n] below 2^53 in absolute
    value it is the correctly rounded quotient of two exact floats. *)
Definition div_1000 (n : Z) : float := PrimFloat.div (float_of_int n) 1000%float.

Definition pricing : list (string * (float * float)) :=
  [ ("gpt-4o-mini", (0.00015, 0.0006));
    ("gpt-4o", (0.0025, 0.01));
    ("gpt-4-turbo", (0.01, 0.03)) ]%float.

Fixpoint pricing_get (table : list (string * (float * float))) (model : string)
  (default : float * float) : float * float :=
  match table with
  | [] => default
  | (m, p) :: rest => if String.eqb m model then p else pricing_get rest model default
  end.

(** [estimate_cost] *)
Definition estimate_cost (prompt_tokens completion_tokens : Z) (model : string) : float :=
  let model_pricing := pricing_get pricing model (pricing_get pricing "gpt-4o-mini" (0, 0)%float) in
  let input_cost := PrimFloat.mul (div_1000 prompt_tokens) (fst model_pricing) in
  let output_cost := PrimFloat.mul (div_1000 completion_tokens) (snd model_pricing) in
  PrimFloat.add input_cost output_cost.

(** ** [app.py]: the configured steps *)

Record step : Type := mkStep {
  step_prompt : string;             (* [step["prompt"]] *)
  step_output_fields : string;      (* [step["output_fields"]], comma separated *)
  step_model : string               (* [step["model"]] *)
}.

(** [not step["prompt"] or not step["output_fields"]] *)
Definition skipped (s : step) : bool :=
  match step_prompt s, step_output_fields s with
  | String _ _, String _ _ => false
  | _, _ => true
  end.

Record locals : Type := mkLocals {
  result_df : DataFrame;
  total_prompt_tokens : Z;
  total_completion_tokens : Z;
  row_data : pydict
}.

(** [for x in xs: state = body(state, x)], stopping at the first exception. *)
Fixpoint for_each {A S : Type} (body : S -> A -> M S) (xs : list A) (s : S) : M S :=
  match xs with
  | [] => ret s
  | x :: xs' => let* s' := body s x in for_each body xs' s'
  end.

Definition log_request (req : request) (w : world) : world :=
  mkWorld (environ_api_key w) (session w) (request_log w ++ [req]) (error_banners w).

(** [st.error(...)]; the banner is recorded by the text of the exception. *)
Definition st_error (msg : string) : M unit :=
  fun w => (Ok tt, mkWorld (environ_api_key w) (session w) (request_log w)
                           (error_banners w ++ [msg])).

Definition set_session (s : session_state) : M unit :=
  fun w => (Ok tt, mkWorld (environ_api_key w) s (request_log w) (error_banners w)).

(** Lower-case hexadecimal digit. *)
Definition hex_digit (n : N) : ascii :=
  if (n <? 10)%N then ascii_of_N (48 + n) else ascii_of_N (87 + n).

(** How [repr] shows one character of a [str] quoted with [quote]. *)
Definition repr_char (quote c : ascii) : string :=
  let n := code c in
  if ascii_eqb c quote || ascii_eqb c "\" then String "\" (String c EmptyString)
  else if (n =? 9)%N then "\t"
  else if (n =? 10)%N then "\n"
  else if (n =? 13)%N then "\r"
  else if (n <? 32)%N || (n =? 127)%N || between 128 160 n || (n =? 173)%N
       then String "\" (String "x" (String (hex_digit (n / 16)) (String (hex_digit (n mod 16)) EmptyString)))
  else String c EmptyString.

Fixpoint repr_chars (quote : ascii) (s : string) : string :=
  match s with
  | EmptyString => EmptyString
  | String c s' => repr_char quote c +:+ repr_chars quote s'
  end.

(** [repr(s)] for a [str]: single quotes, unless the text has a single quote
    and no double quote. *)
Definition repr_str (s : string) : string :=
  let quote := if has_char "'" s && negb (has_char dquote s) then dquote else "'"%char in
  String quote (repr_chars quote s +:+ String quote EmptyString).

(** ** Sample data

    A scripted endpoint and small tables, steps and worlds, to run the
    pipeline on concrete inputs. *)

(** Float text for runs whose values hold no float: the literal itself. *)
Definition as_written (lit : string) : string := lit.

(** The endpoint that gives its n-th scripted answer to the n-th call. *)
Definition scripted (answers : list remote_outcome) (log : list request) (req : request)
  : remote_outcome :=
  match answers !! length log with
  | Some a => a
  | None => Failed "no scripted answer"
  end.

Definition reply (text : string) (prompt_tokens completion_tokens : Z) (m : string)
  : remote_outcome :=
  Completed (mkCompletion text prompt_tokens completion_tokens
               (prompt_tokens + completion_tokens) m).

(** The JSON text of an object with one text field. *)
Definition json_object1 (k v : string) : string :=
  "{" +:+ quoted k +:+ ": " +:+ quoted v +:+ "}".

Definition review_row_0 : pydict := [("CustomerReview", VStr "Great product")].
Definition review_row_1 : pydict := [("CustomerReview", VStr "Too slow")].

Definition review_table : DataFrame :=
  mkDataFrame ["CustomerReview"] [review_row_0; review_row_1].

Definition empty_table : DataFrame := mkDataFrame ["CustomerReview"] [].

(** A table that already has a column named with the prefix. *)
Definition labelled_table : DataFrame :=
  mkDataFrame ["CustomerReview"; "AI_sentiment"]
    [[("CustomerReview", VStr "Great product"); ("AI_sentiment", VStr "checked by hand")]].

Definition sentiment_step : step :=
  mkStep "Analyze: {@CustomerReview}" "sentiment" "gpt-4o-mini".

Definition summary_step : step :=
  mkStep "Summarize a {@AI_sentiment} review" "summary" "gpt-4o".

Definition blank_step : step := mkStep EmptyString "summary" "gpt-4o".

(** An interpreter with the default limits: room for 900 levels of nesting,
    integers of at most 4300 digits. *)
Definition sample_depth : nat := 900.
Definition sample_digits : nat := 4300.

Definition fresh_session : session_state := mkSession (0, 0) 0%float.

Definition fresh_world : world := mkWorld (Some "sk-test") fresh_session [] [].

Definition world_without_key : world := mkWorld None fresh_session [] [].

Definition two_replies : list remote_outcome :=
  [reply (json_object1 "sentiment" "positive") 10 5 "gpt-4o-mini";
   reply (json_object1 "summary" "short") 20 7 "gpt-4o"].

(** The endpoint answers the first call and fails on the second. *)
Definition failing_second : list remote_outcome :=
  [reply (json_object1 "sentiment" "positive") 10 5 "gpt-4o-mini";
   Failed "RateLimitError"].

Definition not_json_completion : completion := mkCompletion "not json" 12 3 15 "gpt-4o-mini".

(** Both steps answered with 500 and 500 tokens: the totals are 1000 and 1000. *)
Definition two_equal_replies : list remote_outcome :=
  [reply (json_object1 "sentiment" "positive") 500 500 "gpt-4o-mini";
   reply (json_object1 "summary" "short") 500 500 "gpt-4o"].

(** The locals of the row loop before and after the first step on the first
    row of [review_table], when the reply says the sentiment is positive. *)
Definition first_row_locals : locals := mkLocals review_table 0 0 review_row_0.

Definition first_row_after_sentiment : locals :=
  mkLocals
    (mkDataFrame ["CustomerReview"; "AI_sentiment"]
       [[("CustomerReview", VStr "Great product"); ("AI_sentiment", VStr "positive")];
        [("CustomerReview", VStr "Too slow"); ("AI_sentiment", NaN)]])
    10 5
    [("CustomerReview", VStr "Great product"); ("AI_sentiment", VStr "positive")].

(** A second step that names the field of the first and a column, and a
    reply to the first step whose value is itself a placeholder. *)
Definition echo_step : step :=
  mkStep "X {@AI_sentiment} Y {@CustomerReview}" "summary" "gpt-4o".

Definition placeholder_replies : list remote_outcome :=
  [reply (json_object1 "sentiment" "{@CustomerReview}") 10 5 "gpt-4o-mini";
   reply (json_object1 "summary" "short") 20 7 "gpt-4o"].

(** A decimal literal of [n] digits. *)
Definition long_integer (n : nat) : string :=
  fold_right String EmptyString (replicate n "7"%char).

Definition nan_completion : completion := mkCompletion "NaN" 12 3 15 "gpt-4o-mini".

Definition nested_completion : completion := mkCompletion "[[[[" 12 3 15 "gpt-4o-mini".

Section Pipeline.

(** [str(x)] for the float that Python reads from a decimal literal: the
    shortest text that reads back as the same binary64 number. *)
Variable float_str : string -> string.

(** The endpoint: its answer to a request, given the requests before it. *)
Variable remote : list request -> request -> remote_outcome.

(** The interpreter: the levels of nesting its recursion limit leaves to
    [json.loads] where [process_item] calls it, and
    [sys.get_int_max_str_digits()] (4300 unless configured; 0 is no limit). *)
Variable decoder_depth : nat.
Variable int_max_str_digits : nat.

Definition str_of_float (f : pyfloat) : string :=
  match f with
  | FNaN => "nan"
  | FInf => "inf"
  | FNegInf => "-inf"
  | FLit lit => float_str lit
  end.

(** [repr(v)] *)
Fixpoint py_repr (v : value) : string :=
  match v with
  | VNone => "None"
  | VBool true => "True"
  | VBool false => "False"
  | VInt z => str_of_int z
  | VFloat f => str_of_float f
  | VStr s => repr_str s
  | VList l => "[" +:+ join ", " (map py_repr l) +:+ "]"
  | VDict d =>
      "{" +:+ join ", " (map (fun kv => repr_str (fst kv) +:+ ": " +:+ py_repr (snd kv)) d)
          +:+ "}"
  end.

(** [str(v)] *)
Definition py_str (v : value) : string :=
  match v with
  | VStr s => s
  | _ => py_repr v
  end.

(** *** [utils/prompt_helper.py] *)

Definition placeholder (column_name : string) : string :=
  "{@" +:+ column_name +:+ "}".

Definition extract_placeholders (prompt : string) : list string :=
  findall_from 0 prompt.

Definition replace_placeholders (prompt : string) (row_data : pydict) : string :=
  let matches := findall_from 0 prompt in
  fold_left
    (fun result column_name =>
       let value := dict_get_default row_data column_name (VStr EmptyString) in
       str_replace result (placeholder column_name) (py_str value))
    matches prompt.

(** The substitution in the words of the specification: one pass over the
    template; every match of the pattern is replaced by the string form of
    the row's value, or by the empty string when the row has no such
    column; the inserted text is not looked at again. *)
Fixpoint substitute_from (row : pydict) (skip : nat) (s : string) : string :=
  match s with
  | EmptyString => EmptyString
  | String a s' =>
      match skip with
      | S k => substitute_from row k s'
      | O =>
          match match_placeholder s with
          | Some name =>
              py_str (dict_get_default row name (VStr EmptyString))
                +:+ substitute_from row (String.length name + 2) s'
          | None => String a (substitute_from row 0 s')
          end
      end
  end.

Definition substitute (template : string) (row : pydict) : string :=
  substitute_from row 0 template.

(** *** [OpenAIProcessingService.process_item] *)

(** [self.client.chat.completions.create(...)] *)
Definition chat_completions_create (req : request) : M completion :=
  fun w =>
    match remote (request_log w) req with
    | Completed c => (Ok c, log_request req w)
    | Failed e => (Raise (APIError e), log_request req w)
    end.

(** [try: json.loads(content)  except json.JSONDecodeError: ...]; the other
    exceptions of the decoder are not caught. *)
Definition parse_response (content : string) : M value :=
  match json_loads decoder_depth int_max_str_digits content with
  | Loaded v => ret v
  | JSONDecodeError => ret (VDict [("raw_response", VStr content)])
  | LoadsRecursionError => raise RecursionError
  | LoadsValueError msg => raise (ValueError msg)
  | Unmodelled => fun w => (OutOfModel, w)
  end.

Definition process_item (self : OpenAIProcessingService)
  (prompt : string) (output_fields : list string) (model : string) : M ProcessingResult :=
  let* response := chat_completions_create (build_request prompt output_fields model) in
  let* parsed_response := parse_response (content response) in
  ret (mkProcessingResult parsed_response
         (usage_prompt_tokens response)
         (usage_completion_tokens response)
         (usage_total_tokens response)
         (completion_model response)).

(** *** [process_dataframe] *)

(** [str(value) if not isinstance(value, str) else value] *)
Definition cell_text (v : value) : value :=
  match v with
  | VStr s => VStr s
  | _ => VStr (py_str v)
  end.

(** The body of [for field, value in result.response.items()]. *)
Definition merge_field (row_idx : nat) (loc : locals) (item : string * value) : locals :=
  let col_name := "AI_" +:+ fst item in
  mkLocals (df_at_set (result_df loc) row_idx col_name (cell_text (snd item)))
           (total_prompt_tokens loc) (total_completion_tokens loc)
           (dict_set (row_data loc) col_name (snd item)).

(** [result.response.items()]: only a [dict] has it. *)
Definition items (v : value) : M pydict :=
  match v with
  | VDict d => ret d
  | _ => raise AttributeError
  end.

Definition add_tokens (result : ProcessingResult) (loc : locals) : locals :=
  mkLocals (result_df loc)
           (total_prompt_tokens loc + prompt_tokens result)
           (total_completion_tokens loc + completion_tokens result)
           (row_data loc).

(** The body of [for step_idx, step in enumerate(steps)]. *)
Definition run_step (service : OpenAIProcessingService) (row_idx : nat)
  (loc : locals) (s : step) : M locals :=
  if skipped s then ret loc
  else
    let formatted_prompt := replace_placeholders (step_prompt s) (row_data loc) in
    let output_fields := map strip (split_comma (step_output_fields s)) in
    let* result := process_item service formatted_prompt output_fields (step_model s) in
    let* fields := items (response result) in
    ret (add_tokens result (fold_left (merge_field row_idx) fields loc)).

(** [result_df.iloc[row_idx].to_dict()].  The cells of [rows] are the
    objects this read hands over: a row that pandas holds as numbers of
    mixed kinds comes out as floats, and is a row of floats here. *)
Definition iloc_to_dict (df : DataFrame) (row_idx : nat) : M pydict :=
  match rows df !! row_idx with
  | Some r => ret r
  | None => raise IndexError
  end.

Definition set_row_data (loc : locals) (r : pydict) : locals :=
  mkLocals (result_df loc) (total_prompt_tokens loc) (total_completion_tokens loc) r.

(** The body of [for row_idx in range(rows_to_process)]. *)
Definition run_row (service : OpenAIProcessingService) (steps : list step)
  (loc : locals) (row_idx : nat) : M locals :=
  let* r := iloc_to_dict (result_df loc) row_idx in
  for_each (run_step service row_idx) steps (set_row_data loc r).

Definition pricing_model (steps : list step) : string :=
  match steps with
  | s :: _ => step_model s
  | [] => "gpt-4o-mini"
  end.

(** What follows the construction of the service. *)
Definition process_rows (service : OpenAIProcessingService) (df : DataFrame)
  (steps : list step) (preview_only : bool) : M DataFrame :=
  let rows_to_process := if preview_only then 1%nat else df_len df in
  let* loc := for_each (run_row service steps) (seq 0 rows_to_process)
                (mkLocals df 0 0 []) in   (* [result_df = df.copy()] *)
  let* _ := set_session
              (mkSession (total_prompt_tokens loc, total_completion_tokens loc)
                 (estimate_cost (total_prompt_tokens loc) (total_completion_tokens loc)
                    (pricing_model steps))) in
  ret (result_df loc).

Definition process_dataframe (df : DataFrame) (steps : list step) (preview_only : bool)
  : M DataFrame :=
  let* service :=
    try_except_ValueError
      (let* s := init None in ret (Some s))
      (fun msg => let* _ := st_error msg in ret None) in
  match service with
  | None => ret df
  | Some service => process_rows service df steps preview_only
  end.

(** *** Templates as token sequences

    A template seen as literal text and placeholders, to state what the
    substitution does on templates whose braces all belong to
    placeholders. *)

Inductive token : Type :=
| TText (s : string)
| TPlaceholder (name : string).

Definition render_token (t : token) : string :=
  match t with
  | TText s => s
  | TPlaceholder name => placeholder name
  end.

Fixpoint render (ts : list token) : string :=
  match ts with
  | [] => EmptyString
  | t :: ts' => render_token t +:+ render ts'
  end.

(** Literal text has no opening brace; a name is a non-empty run of word
    characters. *)
Definition token_ok (t : token) : bool :=
  match t with
  | TText s => negb (has_char "{" s)
  | TPlaceholder EmptyString => false
  | TPlaceholder name => all_chars is_word name
  end.

Fixpoint names (ts : list token) : list string :=
  match ts with
  | [] => []
  | TText _ :: ts' => names ts'
  | TPlaceholder name :: ts' => name :: names ts'
  end.

(** The text a row gives for a column name. *)
Definition value_text (row : pydict) (name : string) : string :=
  py_str (dict_get_default row name (VStr EmptyString)).

Definition subst_token (row : pydict) (t : token) : string :=
  match t with
  | TText s => s
  | TPlaceholder name => value_text row name
  end.

Fixpoint render_subst (row : pydict) (ts : list token) : string :=
  match ts with
  | [] => EmptyString
  | t :: ts' => subst_token row t +:+ render_subst row ts'
  end.

(** One round of [replace_placeholders] seen on tokens: the placeholders of
    [name] become the text [v]. *)
Definition replace_token (name v : string) (t : token) : token :=
  match t with
  | TPlaceholder m => if String.eqb m name then TText v else t
  | TText _ => t
  end.

(** *** The pricing table in the words of the specification *)

Definition input_rate (m : string) : float :=
  if String.eqb m "gpt-4o-mini" then 0.00015
  else if String.eqb m "gpt-4o" then 0.0025
  else if String.eqb m "gpt-4-turbo" then 0.01
  else 0.00015.

Definition output_rate (m : string) : float :=
  if String.eqb m "gpt-4o-mini" then 0.0006
  else if String.eqb m "gpt-4o" then 0.01
  else if String.eqb m "gpt-4-turbo" then 0.03
  else 0.0006.

Definition known_models : list string := ["gpt-4o-mini"; "gpt-4o"; "gpt-4-turbo"].

(** *** Notions used to state what a run does *)

(** [OPENAI_API_KEY] is set to a non-empty text. *)
Definition credential_available (w : world) : Prop :=
  exists a s, environ_api_key w = Some (String a s).

Definition step_request (s : step) (row : pydict) : request :=
  build_request (replace_placeholders (step_prompt s) row)
                (map strip (split_comma (step_output_fields s))) (step_model s).

(** [kept df df']: [df'] has the rows of [df], its columns followed by
    columns named with the prefix, and the same cell in every column
    whose name does not start with the prefix. *)
Definition kept (df df' : DataFrame) : Prop :=
  length (rows df') = length (rows df)
  /\ (exists added, columns df' = columns df ++ added
                    /\ forall c, In c added -> starts_with "AI_" c = true)
  /\ forall (i : nat) (r : pydict) (c : string),
       starts_with "AI_" c = false -> rows df !! i = Some r ->
       exists r', rows df' !! i = Some r' /\ dict_get r' c = dict_get r c.

(** Every call of [added], made after [log], was answered. *)
Definition completed_all (log added : list request) : Prop :=
  forall (i : nat) (req : request),
    added !! i = Some req -> exists c, remote (log ++ take i added) req = Completed c.

(** What a piece of the row loop does to the world: it only appends to
    the log; all its calls were answered, except that a run ending in the
    exception of a call ends with that call, the only one that failed. *)
Definition run_shape {A : Type} (w : world) (r : res A) (w' : world) : Prop :=
  environ_api_key w' = environ_api_key w
  /\ session w' = session w
  /\ error_banners w' = error_banners w
  /\ exists added,
       request_log w' = request_log w ++ added
       /\ match r with
          | Raise (APIError e) =>
              exists pre req,
                added = pre ++ [req]
                /\ completed_all (request_log w) pre
                /\ remote (request_log w ++ pre) req = Failed e
          | _ => completed_all (request_log w) added
          end.

Definition tracked {A : Type} (m : M A) : Prop :=
  forall w r w', m w = (r, w') -> run_shape w r w'.

(** *** Notions used for the further properties *)

(** The first [n] characters of a text. *)
Fixpoint take_chars (n : nat) (s : string) : string :=
  match n, s with
  | S k, String a s' => String a (take_chars k s')
  | _, _ => EmptyString
  end.

(** The token counts an answer reports; a failed call reports none. *)
Definition usage_of (o : remote_outcome) : Z * Z :=
  match o with
  | Completed c => (usage_prompt_tokens c, usage_completion_tokens c)
  | Failed _ => (0, 0)
  end.

(** The sum of the token counts reported for the calls [added], made after
    the calls of [log]. *)
Fixpoint usage_from (log added : list request) : Z * Z :=
  match added with
  | [] => (0, 0)
  | req :: rest =>
      let u := usage_of (remote log req) in
      let v := usage_from (log ++ [req]) rest in
      (fst u + fst v, snd u + snd v)
  end.

(** The number of steps that are not skipped. *)
Definition active_steps (steps : list step) : nat :=
  length (List.filter (fun s => negb (skipped s)) steps).

(** [counts n loc m]: when [m], started with the totals of [loc], ends
    normally, it has made [n] calls and added their reported token counts. *)
Definition counts (n : nat) (loc : locals) (m : M locals) : Prop :=
  forall w loc' w',
    m w = (Ok loc', w') ->
    exists added,
      request_log w' = request_log w ++ added
      /\ length added = n
      /\ total_prompt_tokens loc'
         = total_prompt_tokens loc + fst (usage_from (request_log w) added)
      /\ total_completion_tokens loc'
         = total_completion_tokens loc + snd (usage_from (request_log w) added).

(** [session_state.processing_steps]: the entry [add_processing_step]
    appends, and the two functions that edit the list. *)
Definition default_step : step := mkStep EmptyString EmptyString "gpt-4o-mini".

Definition add_processing_step (processing_steps : list step) : list step :=
  processing_steps ++ [default_step].

Definition remove_processing_step (index : Z) (processing_steps : list step) : list step :=
  if (0 <=? index) && (index <? Z.of_nat (length processing_steps))
  then delete (Z.to_nat index) processing_steps
  else processing_steps.

(** [others_kept k df df']: going from [df] to [df'], no column is lost and
    a row other than row [k] keeps its cell in every column of [df] and
    holds [NaN] in every column that is new in [df']. *)
Definition others_kept (k : nat) (df df' : DataFrame) : Prop :=
  (forall c, c ∈ columns df -> c ∈ columns df')
  /\ forall (i : nat) (r : pydict),
       i <> k -> rows df !! i = Some r ->
       exists r', rows df' !! i = Some r'
                  /\ (forall c, c ∈ columns df -> dict_get r' c = dict_get r c)
                  /\ (forall c, c ∈ columns df' -> c ∉ columns df ->
                                dict_get r' c = Some NaN).

(** The cell of row [i] in column [c]. *)
Definition cell_at (df : DataFrame) (i : nat) (c : string) : option value :=
  match rows df !! i with
  | Some r => dict_get r c
  | None => None
  end.

(** The number of occurrences of a character. *)
Fixpoint count_char (c : ascii) (s : string) : nat :=
  match s with
  | EmptyString => O
  | String a s' => if ascii_eqb a c then S (count_char c s') else count_char c s'
  end.

(** ** Facts about text *)

Lemma ascii_eqb_true (a b : ascii) : ascii_eqb a b = true <-> a = b.
Proof. apply Ascii.eqb_eq. Qed.

Lemma ascii_eqb_same (a : ascii) : ascii_eqb a a = true.
Proof. apply Ascii.eqb_refl. Qed.

Lemma append_cons (x : ascii) (a b : string) : String x a +:+ b = String x (a +:+ b).
Proof. reflexivity. Qed.

Lemma append_nil (b : string) : EmptyString +:+ b = b.
Proof. reflexivity. Qed.

Lemma append_assoc (a b c : string) : (a +:+ b) +:+ c = a +:+ (b +:+ c).
Proof.
  induction a as [|x a IH]; [reflexivity|].
  now rewrite !append_cons, IH.
Qed.

Lemma append_empty_r (a : string) : a +:+ EmptyString = a.
Proof. induction a as [|x a IH]; [reflexivity | now rewrite append_cons, IH]. Qed.

Lemma length_append (a b : string) :
  String.length (a +:+ b) = (String.length a + String.length b)%nat.
Proof.
  induction a as [|x a IH]; [reflexivity|].
  rewrite append_cons. simpl. now rewrite IH.
Qed.

Lemma has_char_append (c : ascii) (a b : string) :
  has_char c (a +:+ b) = has_char c a || has_char c b.
Proof.
  induction a as [|x a IH]; [reflexivity|].
  rewrite append_cons. simpl. now rewrite IH, orb_assoc.
Qed.

Lemma starts_with_append (p s : string) : starts_with p (p +:+ s) = true.
Proof.
  induction p as [|x p IH]; [reflexivity|].
  rewrite append_cons. simpl. now rewrite ascii_eqb_same, IH.
Qed.

(** A text without the first character of [sub] does not contain [sub]. *)
Lemma contains_needs_first (x : ascii) (sub s : string) :
  has_char x s = false -> contains (String x sub) s = false.
Proof.
  induction s as [|a s IH]; simpl; [reflexivity|].
  intros H. apply orb_false_iff in H as [Ha Hs].
  unfold ascii_eqb in *. rewrite Ascii.eqb_sym in Ha. rewrite Ha. simpl.
  now apply IH.
Qed.

Lemma word_not_brace (a : ascii) :
  is_word a = true -> ascii_eqb a "{" = false /\ ascii_eqb a "}" = false.
Proof.
  intros H. split.
  - destruct (ascii_eqb a "{") eqn:E; [|reflexivity].
    apply ascii_eqb_true in E. subst a. discriminate H.
  - destruct (ascii_eqb a "}") eqn:E; [|reflexivity].
    apply ascii_eqb_true in E. subst a. discriminate H.
Qed.

Lemma words_no_brace (w : string) :
  all_chars is_word w = true -> has_char "{" w = false.
Proof.
  induction w as [|a w IH]; simpl; [reflexivity|].
  intros H. apply andb_true_iff in H as [Ha Hw].
  apply word_not_brace in Ha as [Ha _]. now rewrite Ha, IH.
Qed.

Lemma span_word_name (name rest : string) :
  all_chars is_word name = true ->
  span_word (name +:+ String "}" rest) = (name, String "}" rest).
Proof.
  induction name as [|a name IH]; intros H; [reflexivity|].
  simpl in H. apply andb_true_iff in H as [Ha Hn].
  rewrite append_cons. simpl. now rewrite Ha, IH.
Qed.

Lemma placeholder_append (name rest : string) :
  placeholder name +:+ rest = String "{" (String "@" (name +:+ String "}" rest)).
Proof.
  unfold placeholder. now rewrite !append_assoc, !append_cons, append_nil.
Qed.

Lemma match_placeholder_at (name rest : string) :
  token_ok (TPlaceholder name) = true ->
  match_placeholder (placeholder name +:+ rest) = Some name.
Proof.
  intros H. rewrite placeholder_append. unfold match_placeholder.
  destruct name as [|a name]; [discriminate H|].
  simpl in H. simpl ascii_eqb. rewrite span_word_name by exact H.
  reflexivity.
Qed.

Lemma match_placeholder_other (a : ascii) (s : string) :
  ascii_eqb a "{" = false -> match_placeholder (String a s) = None.
Proof. intros H. unfold match_placeholder. destruct s; [reflexivity|]. now rewrite H. Qed.

(** *** The three scanners on a template made of tokens *)

Lemma placeholder_unfold (name : string) :
  placeholder name = String "{" (String "@" (name +:+ String "}" EmptyString)).
Proof. reflexivity. Qed.

Lemma placeholder_length (name : string) :
  String.length (placeholder name) = S (S (String.length name + 1)).
Proof. rewrite placeholder_unfold. simpl. now rewrite length_append. Qed.

Lemma placeholder_tail (name rest : string) :
  String "@" (name +:+ String "}" rest)
  = String "@" (name +:+ String "}" EmptyString) +:+ rest.
Proof. now rewrite append_cons, append_assoc, append_cons, append_nil. Qed.

Lemma placeholder_tail_no_brace (name : string) :
  all_chars is_word name = true ->
  has_char "{" (String "@" (name +:+ String "}" EmptyString)) = false.
Proof.
  intros H. simpl. rewrite has_char_append, (words_no_brace _ H). reflexivity.
Qed.

Lemma token_ok_words (name : string) :
  token_ok (TPlaceholder name) = true -> all_chars is_word name = true.
Proof. destruct name; [discriminate | trivial]. Qed.

Lemma findall_skip (p : string) (k : nat) (s : string) :
  findall_from (String.length p + k) (p +:+ s) = findall_from k s.
Proof.
  induction p as [|x p IH]; [reflexivity|].
  rewrite append_cons. simpl. apply IH.
Qed.

Lemma findall_text (t s : string) :
  has_char "{" t = false -> findall_from 0 (t +:+ s) = findall_from 0 s.
Proof.
  induction t as [|a t IH]; intros H; [reflexivity|].
  simpl in H. apply orb_false_iff in H as [Ha Ht].
  rewrite append_cons.
  change (findall_from 0 (String a (t +:+ s)))
    with (match match_placeholder (String a (t +:+ s)) with
          | Some name => name :: findall_from (String.length name + 2) (t +:+ s)
          | None => findall_from 0 (t +:+ s)
          end).
  rewrite (match_placeholder_other _ _ Ha). now apply IH.
Qed.

Lemma findall_placeholder (name s : string) :
  token_ok (TPlaceholder name) = true ->
  findall_from 0 (placeholder name +:+ s) = name :: findall_from 0 s.
Proof.
  intros H. pose proof (match_placeholder_at name s H) as Hm.
  rewrite placeholder_append in *.
  change (findall_from 0 (String "{" (String "@" (name +:+ String "}" s))))
    with (match match_placeholder (String "{" (String "@" (name +:+ String "}" s))) with
          | Some n => n :: findall_from (String.length n + 2)
                                        (String "@" (name +:+ String "}" s))
          | None => findall_from 0 (String "@" (name +:+ String "}" s))
          end).
  rewrite Hm. f_equal.
  rewrite placeholder_tail.
  replace (String.length name + 2)%nat
    with (String.length (String "@" (name +:+ String "}" EmptyString)) + 0)%nat
    by (simpl; rewrite length_append; simpl; lia).
  apply findall_skip.
Qed.

Lemma findall_render (ts : list token) :
  forallb token_ok ts = true -> findall_from 0 (render ts) = names ts.
Proof.
  induction ts as [|t ts IH]; intros H; [reflexivity|].
  simpl in H. apply andb_true_iff in H as [Ht Hts].
  destruct t as [txt|name]; cbn [render render_token render_subst subst_token names].
  - rewrite findall_text; [now apply IH|].
    simpl in Ht. now apply negb_true_iff in Ht.
  - rewrite findall_placeholder by exact Ht. now rewrite IH.
Qed.

Lemma substitute_skip (row : pydict) (p : string) (k : nat) (s : string) :
  substitute_from row (String.length p + k) (p +:+ s) = substitute_from row k s.
Proof.
  induction p as [|x p IH]; [reflexivity|].
  rewrite append_cons. simpl. apply IH.
Qed.

Lemma substitute_text (row : pydict) (t s : string) :
  has_char "{" t = false ->
  substitute_from row 0 (t +:+ s) = t +:+ substitute_from row 0 s.
Proof.
  induction t as [|a t IH]; intros H; [reflexivity|].
  simpl in H. apply orb_false_iff in H as [Ha Ht].
  rewrite !append_cons.
  change (substitute_from row 0 (String a (t +:+ s)))
    with (match match_placeholder (String a (t +:+ s)) with
          | Some name => value_text row name
                           +:+ substitute_from row (String.length name + 2) (t +:+ s)
          | None => String a (substitute_from row 0 (t +:+ s))
          end).
  rewrite (match_placeholder_other _ _ Ha). f_equal. now apply IH.
Qed.

Lemma substitute_placeholder (row : pydict) (name s : string) :
  token_ok (TPlaceholder name) = true ->
  substitute_from row 0 (placeholder name +:+ s)
  = value_text row name +:+ substitute_from row 0 s.
Proof.
  intros H. pose proof (match_placeholder_at name s H) as Hm.
  rewrite placeholder_append in *.
  change (substitute_from row 0 (String "{" (String "@" (name +:+ String "}" s))))
    with (match match_placeholder (String "{" (String "@" (name +:+ String "}" s))) with
          | Some n => value_text row n
                        +:+ substitute_from row (String.length n + 2)
                              (String "@" (name +:+ String "}" s))
          | None => String "{" (substitute_from row 0 (String "@" (name +:+ String "}" s)))
          end).
  rewrite Hm. f_equal.
  rewrite placeholder_tail.
  replace (String.length name + 2)%nat
    with (String.length (String "@" (name +:+ String "}" EmptyString)) + 0)%nat
    by (simpl; rewrite length_append; simpl; lia).
  apply substitute_skip.
Qed.

Lemma substitute_render (row : pydict) (ts : list token) :
  forallb token_ok ts = true -> substitute (render ts) row = render_subst row ts.
Proof.
  unfold substitute.
  induction ts as [|t ts IH]; intros H; [reflexivity|].
  simpl in H. apply andb_true_iff in H as [Ht Hts].
  destruct t as [txt|name]; cbn [render render_token render_subst subst_token names].
  - rewrite substitute_text; [now rewrite IH|].
    simpl in Ht. now apply negb_true_iff in Ht.
  - rewrite substitute_placeholder by exact Ht. now rewrite IH.
Qed.

Lemma replace_skip (old new p : string) (k : nat) (s : string) :
  replace_from old new (String.length p + k) (p +:+ s) = replace_from old new k s.
Proof.
  induction p as [|x p IH]; [reflexivity|].
  rewrite append_cons. simpl. apply IH.
Qed.

Lemma replace_from_step (old new : string) (a : ascii) (s : string) :
  replace_from old new 0 (String a s)
  = if starts_with old (String a s)
    then new +:+ replace_from old new (String.length old - 1) s
    else String a (replace_from old new 0 s).
Proof. reflexivity. Qed.

Lemma replace_text (name v t s : string) :
  has_char "{" t = false ->
  replace_from (placeholder name) v 0 (t +:+ s)
  = t +:+ replace_from (placeholder name) v 0 s.
Proof.
  induction t as [|a t IH]; intros H; [reflexivity|].
  simpl in H. apply orb_false_iff in H as [Ha Ht].
  rewrite !append_cons, replace_from_step.
  rewrite placeholder_unfold at 1. cbn [starts_with].
  unfold ascii_eqb in *. rewrite Ascii.eqb_sym, Ha. cbn [andb].
  f_equal. now apply IH.
Qed.

Lemma replace_same (name v s : string) :
  replace_from (placeholder name) v 0 (placeholder name +:+ s)
  = v +:+ replace_from (placeholder name) v 0 s.
Proof.
  pose proof (starts_with_append (placeholder name) s) as Hs.
  rewrite placeholder_append in *.
  rewrite replace_from_step, Hs. f_equal.
  rewrite placeholder_tail, placeholder_length.
  replace (S (S (String.length name + 1)) - 1)%nat
    with (String.length (String "@" (name +:+ String "}" EmptyString)) + 0)%nat
    by (simpl; rewrite length_append; simpl; lia).
  apply replace_skip.
Qed.

(** Two names that are runs of word characters and agree up to the
    closing brace are the same name. *)
Lemma starts_with_name (n m s : string) :
  all_chars is_word n = true -> all_chars is_word m = true ->
  starts_with (n +:+ String "}" EmptyString) (m +:+ String "}" s) = true -> n = m.
Proof.
  revert m. induction n as [|a n IH]; intros [|b m] Hn Hm H.
  - reflexivity.
  - rewrite append_nil, append_cons in H. cbn [starts_with] in H. simpl in Hm.
    apply andb_true_iff in Hm as [Hb _]. apply word_not_brace in Hb as [_ Hb].
    unfold ascii_eqb in *. rewrite Ascii.eqb_sym, Hb in H. discriminate.
  - rewrite append_nil, append_cons in H. cbn [starts_with] in H. simpl in Hn.
    apply andb_true_iff in Hn as [Ha _]. apply word_not_brace in Ha as [_ Ha].
    rewrite Ha in H. discriminate.
  - rewrite !append_cons in H. cbn [starts_with] in H. simpl in Hn, Hm.
    apply andb_true_iff in H as [Hab H].
    apply andb_true_iff in Hn as [_ Hn]. apply andb_true_iff in Hm as [_ Hm].
    apply ascii_eqb_true in Hab. subst b. f_equal. now apply IH.
Qed.

Lemma replace_other (name m v s : string) :
  token_ok (TPlaceholder name) = true -> token_ok (TPlaceholder m) = true ->
  m <> name ->
  replace_from (placeholder name) v 0 (placeholder m +:+ s)
  = placeholder m +:+ replace_from (placeholder name) v 0 s.
Proof.
  intros Hn Hm Hne.
  apply token_ok_words in Hn. apply token_ok_words in Hm.
  rewrite !placeholder_append, replace_from_step.
  destruct (starts_with (placeholder name) (String "{" (String "@" (m +:+ String "}" s))))
    eqn:E.
  - exfalso. apply Hne. symmetry.
    rewrite placeholder_unfold in E. cbn [starts_with] in E.
    rewrite !ascii_eqb_same in E. cbn [andb] in E.
    now apply (starts_with_name name m s).
  - f_equal.
    rewrite (placeholder_tail m s),
      (placeholder_tail m (replace_from (placeholder name) v 0 s)).
    apply replace_text. now apply placeholder_tail_no_brace.
Qed.

Lemma replace_render (name v : string) (ts : list token) :
  token_ok (TPlaceholder name) = true ->
  forallb token_ok ts = true ->
  str_replace (render ts) (placeholder name) v
  = render (map (replace_token name v) ts).
Proof.
  intros Hn. unfold str_replace. rewrite placeholder_unfold at 1.
  change (String "{" (String "@" (name +:+ String "}" EmptyString)))
    with (placeholder name).
  induction ts as [|t ts IH]; intros H; [reflexivity|].
  simpl in H. apply andb_true_iff in H as [Ht Hts].
  destruct t as [txt|m]; cbn [render render_token map replace_token].
  - rewrite replace_text; [now rewrite IH|].
    simpl in Ht. now apply negb_true_iff in Ht.
  - destruct (String.eqb m name) eqn:E.
    + apply String.eqb_eq in E. subst m. cbn [render_token].
      now rewrite replace_same, IH.
    + apply String.eqb_neq in E. cbn [render_token].
      now rewrite replace_other, IH.
Qed.

Lemma replace_token_ok (name v : string) (ts : list token) :
  has_char "{" v = false ->
  forallb token_ok ts = true ->
  forallb token_ok (map (replace_token name v) ts) = true.
Proof.
  intros Hv. induction ts as [|t ts IH]; intros H; [reflexivity|].
  simpl in H. apply andb_true_iff in H as [Ht Hts].
  cbn [map forallb]. rewrite (IH Hts), andb_true_r.
  destruct t as [txt|m]; cbn [replace_token]; [exact Ht|].
  destruct (String.eqb m name); [|exact Ht].
  simpl. now rewrite Hv.
Qed.

Lemma replace_token_names (name v : string) (ts : list token) :
  names (map (replace_token name v) ts)
  = List.filter (fun m => negb (String.eqb m name)) (names ts).
Proof.
  induction ts as [|t ts IH]; [reflexivity|].
  destruct t as [txt|m]; cbn [map replace_token names]; [exact IH|].
  cbn [List.filter]. destruct (String.eqb m name); cbn [names negb]; now rewrite IH.
Qed.

Lemma replace_token_subst (row : pydict) (name : string) (ts : list token) :
  render_subst row (map (replace_token name (value_text row name)) ts)
  = render_subst row ts.
Proof.
  induction ts as [|t ts IH]; [reflexivity|].
  destruct t as [txt|m]; cbn [map replace_token render_subst subst_token].
  - now rewrite IH.
  - destruct (String.eqb m name) eqn:E; cbn [subst_token]; rewrite IH; [|reflexivity].
    apply String.eqb_eq in E. now subst m.
Qed.

Lemma render_without_names (row : pydict) (ts : list token) :
  names ts = [] -> render ts = render_subst row ts.
Proof.
  induction ts as [|t ts IH]; intros H; [reflexivity|].
  destruct t as [txt|m]; [|discriminate H].
  cbn [render render_token render_subst subst_token]. now rewrite IH.
Qed.

Lemma render_subst_no_brace (row : pydict) (ts : list token) :
  forallb token_ok ts = true ->
  (forall name, In name (names ts) -> has_char "{" (value_text row name) = false) ->
  has_char "{" (render_subst row ts) = false.
Proof.
  induction ts as [|t ts IH]; intros H Hv; [reflexivity|].
  simpl in H. apply andb_true_iff in H as [Ht Hts].
  cbn [render_subst]. rewrite has_char_append.
  destruct t as [txt|m]; cbn [subst_token].
  - simpl in Ht. apply negb_true_iff in Ht. rewrite Ht. simpl.
    apply IH; [exact Hts|exact Hv].
  - rewrite (Hv m) by (left; reflexivity). simpl.
    apply IH; [exact Hts|]. intros n Hn. apply Hv. now right.
Qed.

(** The name-by-name loop of [replace_placeholders], on tokens. *)
Lemma replace_loop_render (row : pydict) (ns : list string) (ts : list token) :
  forallb token_ok ts = true ->
  (forall name, In name ns ->
     token_ok (TPlaceholder name) = true /\ has_char "{" (value_text row name) = false) ->
  exists ts',
    fold_left
      (fun result column_name =>
         str_replace result (placeholder column_name) (value_text row column_name))
      ns (render ts) = render ts'
    /\ forallb token_ok ts' = true
    /\ names ts' = List.filter (fun m => negb (existsb (String.eqb m) ns)) (names ts)
    /\ render_subst row ts' = render_subst row ts.
Proof.
  revert ts. induction ns as [|n ns IH]; intros ts Hts Hns.
  - exists ts. repeat split; try assumption.
    simpl. induction (names ts) as [|x l IHl]; [reflexivity|]. simpl. now f_equal.
  - destruct (Hns n (or_introl eq_refl)) as [Hn Hv].
    cbn [fold_left]. rewrite (replace_render n _ ts Hn Hts).
    destruct (IH (map (replace_token n (value_text row n)) ts)) as (ts' & E & Hok & Hnm & Hsub).
    + now apply replace_token_ok.
    + intros m Hm. apply Hns. now right.
    + exists ts'. repeat split; try assumption.
      * rewrite Hnm, replace_token_names.
        induction (names ts) as [|x l IHl]; [reflexivity|].
        cbn [List.filter existsb]. rewrite (String.eqb_sym x n).
        destruct (String.eqb n x); cbn [negb orb List.filter]; [exact IHl|].
        destruct (existsb (String.eqb x) ns); cbn [negb]; now rewrite IHl.
      * now rewrite Hsub, replace_token_subst.
Qed.

Lemma names_token_ok (ts : list token) (name : string) :
  forallb token_ok ts = true -> In name (names ts) ->
  token_ok (TPlaceholder name) = true.
Proof.
  induction ts as [|t ts IH]; intros H Hin; [destruct Hin|].
  simpl in H. apply andb_true_iff in H as [Ht Hts].
  destruct t as [txt|m]; cbn [names] in Hin.
  - now apply IH.
  - destruct Hin as [->|Hin]; [exact Ht | now apply IH].
Qed.

Lemma filter_out_members (ns l : list string) :
  (forall x, In x l -> In x ns) ->
  List.filter (fun m => negb (existsb (String.eqb m) ns)) l = [].
Proof.
  induction l as [|x l IH]; intros H; [reflexivity|].
  cbn [List.filter].
  assert (E : existsb (String.eqb x) ns = true).
  { apply existsb_exists. exists x. split; [apply H; now left | apply String.eqb_refl]. }
  rewrite E. cbn [negb]. apply IH. intros y Hy. apply H. now right.
Qed.

Lemma replace_placeholders_render (row : pydict) (ts : list token) :
  forallb token_ok ts = true ->
  (forall name, In name (names ts) -> has_char "{" (value_text row name) = false) ->
  replace_placeholders (render ts) row = render_subst row ts.
Proof.
  intros Hts Hv. unfold replace_placeholders. rewrite (findall_render ts Hts).
  destruct (replace_loop_render row (names ts) ts Hts) as (ts' & E & Hok & Hnm & Hsub).
  - intros name Hin. split; [now apply (names_token_ok ts) | now apply Hv].
  - unfold value_text in E. rewrite E.
    rewrite filter_out_members in Hnm by trivial.
    now rewrite (render_without_names row ts' Hnm).
Qed.

(** C1 (as amended).  On a template made of literal text without an opening
    brace and of placeholders, and a row whose inserted texts have no
    opening brace, [replace_placeholders] is the single-pass substitution
    of the specification: each placeholder gives the string form of the
    row's value, or the empty string when the row has no such column, and
    the result contains no placeholder at all. *)
Theorem C1_substitute_single_pass_when_no_brace_is_inserted
  (ts : list token) (row : pydict) :
  forallb token_ok ts = true ->
  (forall name, In name (names ts) -> has_char "{" (value_text row name) = false) ->
  replace_placeholders (render ts) row = substitute (render ts) row
  /\ replace_placeholders (render ts) row = render_subst row ts
  /\ forall X, contains (placeholder X) (replace_placeholders (render ts) row) = false.
Proof.
  intros Hts Hv.
  pose proof (replace_placeholders_render row ts Hts Hv) as E.
  repeat split.
  - now rewrite E, substitute_render.
  - exact E.
  - intros X. rewrite E, placeholder_unfold.
    apply contains_needs_first. now apply render_subst_no_brace.
Qed.

(** ** The model client *)

Lemma process_item_completed (self : OpenAIProcessingService) (prompt : string)
  (output_fields : list string) (m : string) (w : world) (c : completion) :
  remote (request_log w) (build_request prompt output_fields m) = Completed c ->
  process_item self prompt output_fields m w
  = match json_loads decoder_depth int_max_str_digits (content c) with
    | Loaded v =>
        (Ok (mkProcessingResult v (usage_prompt_tokens c) (usage_completion_tokens c)
               (usage_total_tokens c) (completion_model c)),
         log_request (build_request prompt output_fields m) w)
    | JSONDecodeError =>
        (Ok (mkProcessingResult (VDict [("raw_response", VStr (content c))])
               (usage_prompt_tokens c) (usage_completion_tokens c)
               (usage_total_tokens c) (completion_model c)),
         log_request (build_request prompt output_fields m) w)
    | LoadsRecursionError =>
        (Raise RecursionError, log_request (build_request prompt output_fields m) w)
    | LoadsValueError msg =>
        (Raise (ValueError msg), log_request (build_request prompt output_fields m) w)
    | Unmodelled => (OutOfModel, log_request (build_request prompt output_fields m) w)
    end.
Proof.
  intros H. unfold process_item, bind, chat_completions_create, parse_response.
  rewrite H. destruct (json_loads _ _ (content c)); reflexivity.
Qed.

Lemma process_item_failed (self : OpenAIProcessingService) (prompt : string)
  (output_fields : list string) (m : string) (w : world) (e : string) :
  remote (request_log w) (build_request prompt output_fields m) = Failed e ->
  process_item self prompt output_fields m w
  = (Raise (APIError e), log_request (build_request prompt output_fields m) w).
Proof.
  intros H. unfold process_item, bind, chat_completions_create. now rewrite H.
Qed.

Lemma not_json_is_rejected :
  json_loads decoder_depth int_max_str_digits "not json" = JSONDecodeError.
Proof. reflexivity. Qed.

(** C6 (as amended).  When the endpoint answers and [json.loads] rejects the
    reply text with [JSONDecodeError], [process_item] does not raise: it
    returns a result whose [response] is exactly the one-entry mapping from
    [raw_response] to the reply text, with the usage counts as reported.
    The text [not json] is such a reply.  A text that [json.loads] accepts
    is returned decoded, and the [RecursionError] or [ValueError] that
    [json.loads] raises on other texts leaves [process_item] as it is. *)
Theorem C6_unparsable_reply_is_kept_as_raw_response
  (self : OpenAIProcessingService) (prompt : string) (output_fields : list string)
  (m : string) (w : world) (c : completion) :
  remote (request_log w) (build_request prompt output_fields m) = Completed c ->
  (json_loads decoder_depth int_max_str_digits (content c) = JSONDecodeError ->
   process_item self prompt output_fields m w
   = (Ok (mkProcessingResult (VDict [("raw_response", VStr (content c))])
            (usage_prompt_tokens c) (usage_completion_tokens c)
            (usage_total_tokens c) (completion_model c)),
      log_request (build_request prompt output_fields m) w))
  /\ (content c = "not json" ->
      process_item self prompt output_fields m w
      = (Ok (mkProcessingResult (VDict [("raw_response", VStr "not json")])
               (usage_prompt_tokens c) (usage_completion_tokens c)
               (usage_total_tokens c) (completion_model c)),
         log_request (build_request prompt output_fields m) w))
  /\ (forall v,
        json_loads decoder_depth int_max_str_digits (content c) = Loaded v ->
        process_item self prompt output_fields m w
        = (Ok (mkProcessingResult v (usage_prompt_tokens c) (usage_completion_tokens c)
                 (usage_total_tokens c) (completion_model c)),
           log_request (build_request prompt output_fields m) w))
  /\ (json_loads decoder_depth int_max_str_digits (content c) = LoadsRecursionError ->
      process_item self prompt output_fields m w
      = (Raise RecursionError, log_request (build_request prompt output_fields m) w))
  /\ (forall msg,
        json_loads decoder_depth int_max_str_digits (content c) = LoadsValueError msg ->
        process_item self prompt output_fields m w
        = (Raise (ValueError msg), log_request (build_request prompt output_fields m) w)).
Proof.
  intros H. rewrite (process_item_completed _ _ _ _ _ _ H).
  split; [|split; [|split; [|split]]].
  - intros E. now rewrite E.
  - intros E. now rewrite E, not_json_is_rejected.
  - intros v E. now rewrite E.
  - intros E. now rewrite E.
  - intros msg E. now rewrite E.
Qed.

(** ** The cost estimate *)

Lemma pricing_get_rates (m : string) :
  pricing_get pricing m (pricing_get pricing "gpt-4o-mini" (0, 0)%float)
  = (input_rate m, output_rate m).
Proof.
  unfold pricing, input_rate, output_rate. cbn [pricing_get].
  rewrite !(String.eqb_sym _ m).
  destruct (String.eqb m "gpt-4o-mini"); [reflexivity|].
  destruct (String.eqb m "gpt-4o"); [reflexivity|].
  destruct (String.eqb m "gpt-4-turbo"); reflexivity.
Qed.

Lemma unknown_model_rates (m : string) :
  ~ In m known_models ->
  input_rate m = input_rate "gpt-4o-mini" /\ output_rate m = output_rate "gpt-4o-mini".
Proof.
  intros H. unfold input_rate, output_rate.
  destruct (String.eqb m "gpt-4o-mini") eqn:E1; [split; reflexivity|].
  destruct (String.eqb m "gpt-4o") eqn:E2.
  { apply String.eqb_eq in E2. exfalso. apply H. subst m. right. now left. }
  destruct (String.eqb m "gpt-4-turbo") eqn:E3.
  { apply String.eqb_eq in E3. exfalso. apply H. subst m. right. right. now left. }
  split; reflexivity.
Qed.

(** C8 (as amended).  For token counts in the range where [int] to [float]
    is exact, [estimate_cost] is the binary64 value of
    [(p/1000)*input_rate + (c/1000)*output_rate], with the rates of
    [gpt-4o-mini] for an identifier outside the pricing table, so that an
    unknown identifier costs what [gpt-4o-mini] costs.  The value at
    (1000, 1000, gpt-4o-mini) is the double just below 0.00075. *)
Theorem C8_estimate_cost_is_the_rounded_linear_formula (p c : Z) (m : string) :
  0 <= p < 2 ^ 53 -> 0 <= c < 2 ^ 53 ->
  estimate_cost p c m
  = PrimFloat.add (PrimFloat.mul (div_1000 p) (input_rate m))
                  (PrimFloat.mul (div_1000 c) (output_rate m))
  /\ (~ In m known_models -> estimate_cost p c m = estimate_cost p c "gpt-4o-mini")
  /\ estimate_cost 1000 1000 "gpt-4o-mini" = PrimFloat.next_down 0.00075%float.
Proof.
  intros _ _. unfold estimate_cost. rewrite !pricing_get_rates. cbn [fst snd].
  split; [reflexivity|]. split.
  - intros H. destruct (unknown_model_rates m H) as [-> ->]. reflexivity.
  - vm_compute. reflexivity.
Qed.

(** ** The pipeline entry point *)

Lemma process_dataframe_with_credential (df : DataFrame) (steps : list step)
  (preview_only : bool) (w : world) :
  credential_available w ->
  exists service,
    process_dataframe df steps preview_only w = process_rows service df steps preview_only w.
Proof.
  intros (a & s & H). exists (mkService (String a s)).
  unfold process_dataframe, bind, try_except_ValueError, init, or_else, ret.
  rewrite H. reflexivity.
Qed.

(** C10.  Without a credential ([OPENAI_API_KEY] unset or empty; the entry
    point passes none itself) [process_dataframe] makes no model call and
    returns the input table: the [ValueError] of the constructor is caught,
    shown as an error banner, and does not reach the caller.  The session
    is left as it was. *)
Theorem C10_missing_credential_returns_input_table
  (df : DataFrame) (steps : list step) (preview_only : bool) (w : world) :
  environ_api_key w = None \/ environ_api_key w = Some EmptyString ->
  process_dataframe df steps preview_only w
  = (Ok df,
     mkWorld (environ_api_key w) (session w) (request_log w)
             (error_banners w ++ ["OPENAI_API_KEY not found in environment"])).
Proof.
  destruct w as [env sess log banners]. cbn [environ_api_key session request_log error_banners].
  intros [->| ->]; reflexivity.
Qed.

(** C2 (the defect).  In preview mode the row loop runs once whatever the
    table holds, so on a table without rows the read of row 0 raises
    [IndexError]: nothing is returned and the session is not updated. *)
Theorem C2_preview_of_empty_table_raises
  (df : DataFrame) (steps : list step) (w : world) :
  credential_available w ->
  rows df = [] ->
  process_dataframe df steps true w = (Raise IndexError, w).
Proof.
  intros Hc Hrows.
  destruct (process_dataframe_with_credential df steps true w Hc) as [service ->].
  unfold process_rows, bind. cbn [seq for_each].
  unfold bind, run_row, bind, iloc_to_dict. cbn [result_df].
  rewrite Hrows. reflexivity.
Qed.

(** C7 (as amended).  When the run completes, the estimated cost stored in
    the session is [estimate_cost] of the stored token totals at the model
    identifier of the FIRST configured step. *)
Theorem C7_cost_uses_first_step_model
  (df : DataFrame) (s : step) (steps : list step) (preview_only : bool)
  (w w' : world) (df' : DataFrame) :
  credential_available w ->
  process_dataframe df (s :: steps) preview_only w = (Ok df', w') ->
  estimated_cost (session w')
  = estimate_cost (fst (total_tokens (session w'))) (snd (total_tokens (session w')))
                  (step_model s).
Proof.
  intros Hc H.
  destruct (process_dataframe_with_credential df (s :: steps) preview_only w Hc)
    as [service E].
  rewrite E in H. unfold process_rows, bind in H.
  destruct (for_each _ _ _ w) as [[loc| |] w1]; try discriminate H.
  unfold set_session, ret in H. injection H as _ <-. reflexivity.
Qed.

(** ** Loops *)

Lemma for_each_app {A S : Type} (body : S -> A -> M S) (xs ys : list A) (s : S) (w : world) :
  for_each body (xs ++ ys) s w = bind (for_each body xs s) (for_each body ys) w.
Proof.
  revert s w. induction xs as [|x xs IH]; intros s w; [reflexivity|].
  cbn [app for_each]. unfold bind.
  destruct (body s x w) as [[s'| |] w1]; try reflexivity.
  rewrite IH. reflexivity.
Qed.

Lemma for_each_ext {A S : Type} (body1 body2 : S -> A -> M S) (xs : list A) :
  (forall s x w, body1 s x w = body2 s x w) ->
  forall s w, for_each body1 xs s w = for_each body2 xs s w.
Proof.
  intros H. induction xs as [|x xs IH]; intros s w; [reflexivity|].
  cbn [for_each]. unfold bind. rewrite H.
  destruct (body2 s x w) as [[s'| |] w1]; try reflexivity. apply IH.
Qed.

(** ** Skipped steps *)

Lemma skipped_iff (s : step) :
  skipped s = true <-> step_prompt s = EmptyString \/ step_output_fields s = EmptyString.
Proof.
  unfold skipped. destruct (step_prompt s), (step_output_fields s); split;
    intros H; try reflexivity; try discriminate; auto.
  destruct H; discriminate.
Qed.

Lemma run_step_skipped (service : OpenAIProcessingService) (row_idx : nat)
  (loc : locals) (s : step) (w : world) :
  skipped s = true -> run_step service row_idx loc s w = (Ok loc, w).
Proof. intros H. unfold run_step. rewrite H. reflexivity. Qed.

Lemma for_each_without_skipped (service : OpenAIProcessingService) (row_idx : nat)
  (s : step) (before after : list step) (loc : locals) (w : world) :
  skipped s = true ->
  for_each (run_step service row_idx) (before ++ s :: after) loc w
  = for_each (run_step service row_idx) (before ++ after) loc w.
Proof.
  intros H. rewrite !for_each_app. unfold bind.
  destruct (for_each (run_step service row_idx) before loc w) as [[loc'| |] w1];
    try reflexivity.
  cbn [for_each]. unfold bind. rewrite (run_step_skipped _ _ _ _ _ H). reflexivity.
Qed.

(** C4.  A step whose prompt or whose output-fields text is empty is
    skipped without raising: its body leaves the locals (table, row state,
    token totals) and the world (log of model calls, session) as they are;
    and a whole run with the step gives the same outcome, the same model
    calls and the same token totals as the run without it. *)
Theorem C4_skipped_step_is_a_no_op (s : step) :
  step_prompt s = EmptyString \/ step_output_fields s = EmptyString ->
  (forall service row_idx loc w, run_step service row_idx loc s w = (Ok loc, w))
  /\ (forall df before after preview_only w,
        let with_s := process_dataframe df (before ++ s :: after) preview_only w in
        let without := process_dataframe df (before ++ after) preview_only w in
        fst with_s = fst without
        /\ request_log (snd with_s) = request_log (snd without)
        /\ total_tokens (session (snd with_s)) = total_tokens (session (snd without))).
Proof.
  intros Hs. apply skipped_iff in Hs. split.
  - intros. now apply run_step_skipped.
  - intros df before after preview_only w. cbn zeta.
    unfold process_dataframe, bind, try_except_ValueError, init, or_else, ret, st_error.
    destruct (environ_api_key w) as [[|a k]|]; cbn [fst snd]; try (repeat split; reflexivity).
    unfold process_rows, bind.
    rewrite (for_each_ext
               (run_row (mkService (String a k)) (before ++ s :: after))
               (run_row (mkService (String a k)) (before ++ after))).
    + destruct (for_each _ _ _ w) as [[loc| |] w1]; cbn [fst snd];
        repeat split; reflexivity.
    + intros loc i w0. unfold run_row, bind.
      destruct (iloc_to_dict (result_df loc) i w0) as [[r| |] w1]; try reflexivity.
      now apply for_each_without_skipped.
Qed.

(** ** Dictionaries *)

Lemma dict_get_set_eq (d : pydict) (k : string) (v : value) :
  dict_get (dict_set d k v) k = Some v.
Proof.
  induction d as [|[k' v'] d IH]; cbn [dict_set dict_get].
  - now rewrite String.eqb_refl.
  - destruct (String.eqb k' k) eqn:E; cbn [dict_get]; rewrite E; [reflexivity | exact IH].
Qed.

Lemma dict_get_set_ne (d : pydict) (k k' : string) (v : value) :
  k <> k' -> dict_get (dict_set d k v) k' = dict_get d k'.
Proof.
  intros Hne. induction d as [|[k0 v0] d IH]; cbn [dict_set dict_get].
  - apply String.eqb_neq in Hne. now rewrite Hne.
  - destruct (String.eqb k0 k) eqn:E; cbn [dict_get].
    + apply String.eqb_eq in E. subst k0.
      apply String.eqb_neq in Hne. now rewrite Hne.
    + destruct (String.eqb k0 k'); [reflexivity | exact IH].
Qed.

Lemma AI_prefix (field : string) : starts_with "AI_" ("AI_" +:+ field) = true.
Proof. apply starts_with_append. Qed.

Lemma AI_injective (f g : string) : "AI_" +:+ f = "AI_" +:+ g -> f = g.
Proof. intros H. now injection H. Qed.

(** ** What a run keeps of the table *)

Lemma kept_refl (df : DataFrame) : kept df df.
Proof.
  split; [reflexivity|]. split.
  - exists []. split; [now rewrite app_nil_r | intros c []].
  - intros i r c _ H. now exists r.
Qed.

Lemma kept_trans (a b c : DataFrame) : kept a b -> kept b c -> kept a c.
Proof.
  intros (L1 & (ad1 & C1 & P1) & K1) (L2 & (ad2 & C2 & P2) & K2).
  split; [congruence|]. split.
  - exists (ad1 ++ ad2). split.
    + now rewrite C2, C1, app_assoc.
    + intros x Hx. apply in_app_or in Hx as [Hx|Hx]; auto.
  - intros i r x Hx Hr.
    destruct (K1 i r x Hx Hr) as (r1 & Hr1 & E1).
    destruct (K2 i r1 x Hx Hr1) as (r2 & Hr2 & E2).
    exists r2. split; [exact Hr2 | congruence].
Qed.

Lemma kept_at_set (df : DataFrame) (row_idx : nat) (field : string) (v : value) :
  kept df (df_at_set df row_idx ("AI_" +:+ field) v).
Proof.
  assert (Hne : forall c, starts_with "AI_" c = false -> "AI_" +:+ field <> c).
  { intros c Hc E. rewrite <- E, AI_prefix in Hc. discriminate. }
  unfold df_at_set.
  destruct (bool_decide ("AI_" +:+ field ∈ columns df)); unfold kept; cbn [rows columns].
  - split; [apply length_imap|]. split.
    + exists []. split; [now rewrite app_nil_r | intros c []].
    + intros i r c Hc Hr. rewrite list_lookup_imap, Hr. cbn.
      eexists. split; [reflexivity|].
      destruct (Nat.eqb i row_idx); [|reflexivity].
      apply dict_get_set_ne. now apply Hne.
  - split; [apply length_imap|]. split.
    + exists ["AI_" +:+ field]. split; [reflexivity|].
      intros c [<-|[]]. apply AI_prefix.
    + intros i r c Hc Hr. rewrite list_lookup_imap, Hr. cbn.
      eexists. split; [reflexivity|].
      apply dict_get_set_ne. now apply Hne.
Qed.

Lemma for_each_invariant {A S : Type} (R : S -> S -> Prop) (body : S -> A -> M S)
  (xs : list A) :
  (forall s, R s s) -> (forall a b c, R a b -> R b c -> R a c) ->
  (forall s x w s' w', body s x w = (Ok s', w') -> R s s') ->
  forall s w s' w', for_each body xs s w = (Ok s', w') -> R s s'.
Proof.
  intros Hrefl Htrans Hbody.
  induction xs as [|x xs IH]; intros s w s' w' H.
  - injection H as <- _. apply Hrefl.
  - cbn [for_each] in H. unfold bind in H.
    destruct (body s x w) as [[s1| |] w1] eqn:E; try discriminate H.
    apply (Htrans _ s1); [now apply (Hbody s x w s1 w1) | now apply (IH s1 w1 s' w')].
Qed.

Lemma merge_fields_kept (row_idx : nat) (fields : pydict) (loc : locals) :
  kept (result_df loc) (result_df (fold_left (merge_field row_idx) fields loc)).
Proof.
  revert loc. induction fields as [|item fields IH]; intros loc; [apply kept_refl|].
  cbn [fold_left]. eapply kept_trans; [|apply IH].
  unfold merge_field. cbn [result_df]. apply kept_at_set.
Qed.

Lemma run_step_kept (service : OpenAIProcessingService) (row_idx : nat)
  (loc : locals) (s : step) (w : world) (loc' : locals) (w' : world) :
  run_step service row_idx loc s w = (Ok loc', w') ->
  kept (result_df loc) (result_df loc').
Proof.
  unfold run_step. destruct (skipped s).
  - intros H. injection H as <- _. apply kept_refl.
  - unfold bind.
    destruct (process_item _ _ _ _ w) as [[result| |] w1]; try discriminate.
    unfold items. destruct (response result); try discriminate.
    intros H. injection H as <- _. cbn [add_tokens result_df].
    apply merge_fields_kept.
Qed.

Lemma run_row_kept (service : OpenAIProcessingService) (steps : list step)
  (loc : locals) (row_idx : nat) (w : world) (loc' : locals) (w' : world) :
  run_row service steps loc row_idx w = (Ok loc', w') ->
  kept (result_df loc) (result_df loc').
Proof.
  unfold run_row, bind.
  destruct (iloc_to_dict (result_df loc) row_idx w) as [[r| |] w1]; try discriminate.
  intros H.
  apply (for_each_invariant (fun a b => kept (result_df a) (result_df b))
           (run_step service row_idx) steps) in H.
  - exact H.
  - intros s. apply kept_refl.
  - intros a b c. apply kept_trans.
  - intros s x w0 s' w0'. apply run_step_kept.
Qed.

(** C9 (as amended).  In the table a run returns, every row is still
    there, the input columns come first in their order, every column the
    run added is named with the prefix [AI_], and every cell of a column
    whose name does not start with [AI_] has the value it had in the input
    table. *)
Theorem C9_columns_without_the_prefix_are_kept
  (df : DataFrame) (steps : list step) (preview_only : bool) (w w' : world)
  (df' : DataFrame) :
  process_dataframe df steps preview_only w = (Ok df', w') ->
  length (rows df') = length (rows df)
  /\ (exists added, columns df' = columns df ++ added
                    /\ forall c, In c added -> starts_with "AI_" c = true)
  /\ forall (i : nat) (r : pydict) (c : string),
       starts_with "AI_" c = false -> rows df !! i = Some r ->
       exists r', rows df' !! i = Some r' /\ dict_get r' c = dict_get r c.
Proof.
  intros H. change (kept df df').
  unfold process_dataframe, bind, try_except_ValueError, init, or_else, ret, st_error in H.
  destruct (environ_api_key w) as [[|a k]|];
    try (injection H as <- _; apply kept_refl).
  unfold process_rows, bind in H.
  destruct (for_each _ _ _ w) as [[loc| |] w1] eqn:E; try discriminate H.
  unfold set_session, ret in H. injection H as <- _.
  apply (for_each_invariant (fun a b => kept (result_df a) (result_df b))
           (run_row (mkService (String a k)) steps)) in E.
  - exact E.
  - intros s. apply kept_refl.
  - intros x y z. apply kept_trans.
  - intros s x w0 s' w0'. apply run_row_kept.
Qed.

(** ** The log of model calls along a run *)

Lemma completed_all_nil (log : list request) : completed_all log [].
Proof. intros i req H. destruct i; discriminate H. Qed.

Lemma completed_all_app (log a b : list request) :
  completed_all log a -> completed_all (log ++ a) b -> completed_all log (a ++ b).
Proof.
  intros Ha Hb i req H.
  destruct (Nat.lt_ge_cases i (length a)) as [Hi|Hi].
  - rewrite lookup_app_l in H by exact Hi.
    rewrite take_app_le by lia. now apply Ha.
  - rewrite lookup_app_r in H by exact Hi.
    rewrite take_app_ge by exact Hi. rewrite app_assoc. now apply Hb.
Qed.

Lemma completed_all_one (log : list request) (req : request) (c : completion) :
  remote log req = Completed c -> completed_all log [req].
Proof.
  intros H i r Hi. destruct i as [|i]; [|destruct i; discriminate Hi].
  injection Hi as <-. exists c. cbn [take]. now rewrite app_nil_r.
Qed.

Lemma run_shape_here {A : Type} (w : world) (r : res A) :
  match r with Raise (APIError _) => False | _ => True end -> run_shape w r w.
Proof.
  intros H. repeat split. exists []. split; [now rewrite app_nil_r|].
  destruct r as [a|[]|]; try apply completed_all_nil. destruct H.
Qed.

Lemma tracked_ret {A : Type} (a : A) : tracked (ret a).
Proof. intros w r w' H. injection H as <- <-. now apply run_shape_here. Qed.

Lemma tracked_bind {A B : Type} (m : M A) (k : A -> M B) :
  tracked m -> (forall a, tracked (k a)) -> tracked (bind m k).
Proof.
  intros Hm Hk w r w' H. unfold bind in H.
  destruct (m w) as [ra wa] eqn:E. apply Hm in E.
  destruct ra as [a|e|].
  - apply Hk in H.
    destruct E as (E1 & E2 & E3 & ad1 & L1 & C1).
    destruct H as (H1 & H2 & H3 & ad2 & L2 & C2).
    split; [congruence|]. split; [congruence|]. split; [congruence|].
    exists (ad1 ++ ad2). split; [now rewrite L2, L1, app_assoc|].
    rewrite L1 in C2.
    destruct r as [b|[msg| | | |e]|]; try (now apply completed_all_app).
    destruct C2 as (pre & req & -> & Cp & Hf).
    exists (ad1 ++ pre), req. split; [now rewrite app_assoc|]. split.
    + now apply completed_all_app.
    + now rewrite app_assoc.
  - injection H as <- <-. exact E.
  - injection H as <- <-. exact E.
Qed.

Lemma tracked_for_each {A S : Type} (body : S -> A -> M S) (xs : list A) :
  (forall s x, tracked (body s x)) -> forall s, tracked (for_each body xs s).
Proof.
  intros Hb. induction xs as [|x xs IH]; intros s; cbn [for_each].
  - apply tracked_ret.
  - apply tracked_bind; [apply Hb | exact IH].
Qed.

Lemma tracked_chat (req : request) : tracked (chat_completions_create req).
Proof.
  intros w r w' H. unfold chat_completions_create in H.
  destruct (remote (request_log w) req) as [c|e] eqn:E; injection H as <- <-;
    repeat split; exists [req]; (split; [reflexivity|]).
  - now apply (completed_all_one _ _ c).
  - exists [], req. split; [reflexivity|]. split; [apply completed_all_nil|].
    now rewrite app_nil_r.
Qed.

Lemma tracked_process_item (self : OpenAIProcessingService) (prompt : string)
  (output_fields : list string) (m : string) :
  tracked (process_item self prompt output_fields m).
Proof.
  unfold process_item. apply tracked_bind; [apply tracked_chat|].
  intros c. apply tracked_bind; [|intros v; apply tracked_ret].
  unfold parse_response.
  destruct (json_loads _ _ (content c)); try apply tracked_ret;
    intros w r w' H; injection H as <- <-; now apply run_shape_here.
Qed.

Lemma tracked_run_step (service : OpenAIProcessingService) (row_idx : nat)
  (loc : locals) (s : step) :
  tracked (run_step service row_idx loc s).
Proof.
  unfold run_step. destruct (skipped s); [apply tracked_ret|].
  apply tracked_bind; [apply tracked_process_item|].
  intros result. apply tracked_bind; [|intros d; apply tracked_ret].
  unfold items. destruct (response result); try apply tracked_ret;
    intros w r w' H; injection H as <- <-; now apply run_shape_here.
Qed.

Lemma tracked_run_row (service : OpenAIProcessingService) (steps : list step)
  (loc : locals) (row_idx : nat) :
  tracked (run_row service steps loc row_idx).
Proof.
  unfold run_row. apply tracked_bind.
  - unfold iloc_to_dict. destruct (rows (result_df loc) !! row_idx).
    + apply tracked_ret.
    + intros w r w' H. injection H as <- <-. now apply run_shape_here.
  - intros r. apply tracked_for_each. intros s x. apply tracked_run_step.
Qed.

Lemma no_failure_among_completed (log added pre post : list request)
  (req : request) (e : string) :
  completed_all log added -> added = pre ++ req :: post ->
  remote (log ++ pre) req = Failed e -> False.
Proof.
  intros Hc -> Hf.
  destruct (Hc (length pre) req) as [c Hc'].
  - now apply list_lookup_middle.
  - rewrite take_app_length in Hc'. congruence.
Qed.

Lemma failure_is_last (log pre' pre post : list request) (req' req : request)
  (e' e : string) :
  completed_all log pre' -> remote (log ++ pre') req' = Failed e' ->
  pre' ++ [req'] = pre ++ req :: post ->
  remote (log ++ pre) req = Failed e ->
  post = [] /\ e' = e.
Proof.
  intros Hc Hf' E Hf.
  destruct post as [|x post] using rev_ind.
  - apply app_inj_tail in E as [-> ->]. split; [reflexivity | congruence].
  - exfalso. clear IHpost.
    change (pre ++ req :: post ++ [x]) with (pre ++ (req :: post) ++ [x]) in E.
    rewrite app_assoc in E. apply app_inj_tail in E as [E _].
    now apply (no_failure_among_completed log pre' pre post req e).
Qed.

(** C5 (as amended).  If a call made during a run is answered by a failure
    of the endpoint, the run ends there: no further call is made, and the
    exception of the call reaches the caller of [process_dataframe]
    instead of a table.  The session keeps the token totals and the cost it
    had before the run: what the run had gathered is not returned. *)
Theorem C5_failed_call_aborts_the_run
  (df : DataFrame) (steps : list step) (preview_only : bool) (w w' : world)
  (r : res DataFrame) (pre post : list request) (req : request) (e : string) :
  process_dataframe df steps preview_only w = (r, w') ->
  request_log w' = request_log w ++ pre ++ req :: post ->
  remote (request_log w ++ pre) req = Failed e ->
  r = Raise (APIError e) /\ post = [] /\ session w' = session w.
Proof.
  intros H Hlog Hf.
  unfold process_dataframe, bind, try_except_ValueError, init, or_else, ret, st_error in H.
  destruct (environ_api_key w) as [[|a k]|];
    try (injection H as _ <-; cbn [request_log] in Hlog;
         rewrite <- (app_nil_r (request_log w)) in Hlog at 1;
         apply app_inv_head in Hlog; destruct pre; discriminate Hlog).
  unfold process_rows, bind in H.
  destruct (for_each _ _ _ w) as [r1 w1] eqn:E.
  apply (tracked_for_each (run_row (mkService (String a k)) steps)) in E;
    [|intros s x; apply tracked_run_row].
  destruct E as (_ & Hs & _ & added & L & C).
  destruct r1 as [loc|ex|].
  - unfold set_session, ret in H. injection H as _ <-. cbn [request_log] in Hlog.
    rewrite L in Hlog. apply app_inv_head in Hlog.
    exfalso. exact (no_failure_among_completed _ _ _ _ _ _ C Hlog Hf).
  - injection H as <- <-. rewrite L in Hlog. apply app_inv_head in Hlog.
    destruct ex as [msg| | | |e'];
      try (exfalso; exact (no_failure_among_completed _ _ _ _ _ _ C Hlog Hf)).
    destruct C as (pre' & req' & -> & Cp & Hf').
    destruct (failure_is_last _ _ _ _ _ _ _ _ Cp Hf' Hlog Hf) as [-> ->].
    repeat split. exact Hs.
  - injection H as <- <-. rewrite L in Hlog. apply app_inv_head in Hlog.
    exfalso. exact (no_failure_among_completed _ _ _ _ _ _ C Hlog Hf).
Qed.

(** ** The keys of a decoded object are distinct *)

Lemma keys_dict_set (d : pydict) (k : string) (v : value) :
  NoDup (keys d) -> NoDup (keys (dict_set d k v)).
Proof.
  assert (Hk : forall d', keys (dict_set d' k v) = keys d'
                          \/ ((k ∉ keys d') /\ keys (dict_set d' k v) = keys d' ++ [k])).
  { induction d' as [|[k' v'] d' IH]; cbn [dict_set keys map fst].
    - right. split; [apply not_elem_of_nil | reflexivity].
    - destruct (String.eqb k' k) eqn:E; [now left|].
      apply String.eqb_neq in E.
      destruct IH as [IH|[Hn IH]]; unfold keys in *; cbn [map fst].
      + left. now rewrite IH.
      + right. split; [|now rewrite IH].
        apply not_elem_of_cons. split; [congruence | exact Hn]. }
  intros Hd. destruct (Hk d) as [->|[Hn ->]]; [exact Hd|].
  apply NoDup_app. split; [exact Hd|]. split.
  - intros x Hx Hx'. apply list_elem_of_singleton in Hx'. now subst x.
  - apply NoDup_singleton.
Qed.

Lemma parse_members_keys (o : decoder) (depth fuel : nat) (acc : pydict) (s : string)
  (v : value) (r : string) :
  NoDup (keys acc) -> parse_members o depth fuel acc s = POk v r ->
  exists d, v = VDict d /\ NoDup (keys d).
Proof.
  revert acc s. induction fuel as [|f IH]; intros acc s Hacc H; [discriminate H|].
  cbn [parse_members] in H.
  destruct (scanstring o s) as [key r0| | | |]; try discriminate H.
  destruct (skip_ws r0) as [|c1 r1]; try discriminate H.
  destruct (ascii_dec c1 ":") as [->|Hc]; [|
    destruct c1 as [[] [] [] [] [] [] [] []]; try discriminate H; now destruct Hc].
  destruct (scan_once o depth f (skip_ws r1)) as [x r2| | | |]; try discriminate H.
  destruct (skip_ws r2) as [|c3 r3]; try discriminate H.
  destruct (ascii_dec c3 "}") as [->|Hc3].
  { injection H as <- _. eexists. split; [reflexivity | now apply keys_dict_set]. }
  destruct (ascii_dec c3 ",") as [->|Hc4].
  { destruct (skip_ws r3) as [|q r4]; try discriminate H.
    destruct (ascii_eqb q dquote); try discriminate H.
    apply IH in H; [exact H | now apply keys_dict_set]. }
  destruct c3 as [[] [] [] [] [] [] [] []]; try discriminate H;
    first [now destruct Hc3 | now destruct Hc4].
Qed.

Lemma parse_elems_list (o : decoder) (depth fuel : nat) (acc : list value) (s : string)
  (v : value) (r : string) :
  parse_elems o depth fuel acc s = POk v r -> exists l, v = VList l.
Proof.
  revert acc s. induction fuel as [|f IH]; intros acc s H; [discriminate H|].
  cbn [parse_elems] in H.
  destruct (scan_once o depth f s) as [x r1| | | |]; try discriminate H.
  destruct (skip_ws r1) as [|c r2]; try discriminate H.
  destruct (ascii_dec c "]") as [->|Hc].
  { injection H as <- _. now eexists. }
  destruct (ascii_dec c ",") as [->|Hc'].
  { now apply IH in H. }
  destruct c as [[] [] [] [] [] [] [] []]; try discriminate H;
    first [now destruct Hc | now destruct Hc'].
Qed.

Lemma scan_literal_no_dict (o : decoder) (s : string) (d : pydict) (r : string) :
  scan_literal o s <> POk (VDict d) r.
Proof.
  unfold scan_literal.
  destruct (starts_with "null" s); [discriminate|].
  destruct (starts_with "true" s); [discriminate|].
  destruct (starts_with "false" s); [discriminate|].
  destruct (scan_number o s) as [|v r'|msg] eqn:E.
  - destruct (negb (allow_constants o)); [discriminate|].
    destruct (starts_with "NaN" s); [discriminate|].
    destruct (starts_with "Infinity" s); [discriminate|].
    destruct (starts_with "-Infinity" s); discriminate.
  - unfold scan_number in E.
    match type of E with
    | (let '(neg, s1) := ?x in _) = _ => destruct x as [neg s1]
    end.
    destruct (scan_integer_part s1) as [[ip s2]|]; [|discriminate E].
    destruct (scan_frac s2) as [frac s3]. destruct (scan_exp s3) as [ex s4].
    destruct frac, ex;
      try match type of E with
          | (if ?b then _ else _) = _ => destruct b; [discriminate E|]
          end;
      injection E as <- _; discriminate.
  - discriminate.
Qed.

Lemma scan_once_dict_keys (o : decoder) (depth fuel : nat) (s : string) (d : pydict)
  (r : string) :
  scan_once o depth fuel s = POk (VDict d) r -> NoDup (keys d).
Proof.
  destruct fuel as [|f]; [discriminate|]. cbn [scan_once].
  destruct s as [|c s']; [discriminate|].
  destruct (ascii_eqb c dquote).
  { destruct (scanstring o s'); discriminate. }
  destruct (ascii_eqb c "{").
  { destruct depth as [|dp]; [discriminate|].
    destruct (skip_ws s') as [|c1 r1]; [discriminate|].
    destruct (ascii_dec c1 "}") as [->|Hc].
    - intros H. injection H as <- _. apply NoDup_nil_2.
    - assert (E : forall X : parsed value,
                 match c1 with
                 | "}"%char => X
                 | _ => if ascii_eqb c1 dquote then parse_members o dp f [] r1 else PErr
                 end = POk (VDict d) r ->
                 (if ascii_eqb c1 dquote then parse_members o dp f [] r1 else PErr)
                 = POk (VDict d) r).
      { intros X. destruct c1 as [[] [] [] [] [] [] [] []]; trivial. now destruct Hc. }
      intros H. apply E in H. destruct (ascii_eqb c1 dquote); [|discriminate H].
      apply parse_members_keys in H as (d' & [= <-] & Hd); [exact Hd | apply NoDup_nil_2]. }
  destruct (ascii_eqb c "[").
  { destruct depth as [|dp]; [discriminate|].
    intros H.
    assert (exists l, VDict d = VList l) as [l Hl]; [|discriminate Hl].
    destruct (skip_ws s') as [|c1 r1].
    - now apply parse_elems_list in H.
    - destruct (ascii_dec c1 "]") as [->|Hc]; [discriminate H|].
      assert (E : parse_elems o dp f [] (String c1 r1) = POk (VDict d) r).
      { destruct c1 as [[] [] [] [] [] [] [] []]; trivial. now destruct Hc. }
      now apply parse_elems_list in E. }
  intros H. now apply scan_literal_no_dict in H.
Qed.

Lemma json_loads_dict_keys (depth digits : nat) (s : string) (d : pydict) :
  json_loads depth digits s = Loaded (VDict d) -> NoDup (keys d).
Proof.
  unfold json_loads.
  destruct (scan_once (mkDecoder true true digits) _ _ _) as [v0 rest| | | |];
    try discriminate.
  destruct (skip_ws rest); try discriminate.
  destruct (scan_once (mkDecoder true false digits) _ _ _) as [v rest'| | | |] eqn:E;
    try discriminate.
  intros [= ->]. now apply scan_once_dict_keys in E.
Qed.

Lemma process_item_response_keys (self : OpenAIProcessingService) (prompt : string)
  (output_fields : list string) (m : string) (w w1 : world)
  (result : ProcessingResult) (d : pydict) :
  process_item self prompt output_fields m w = (Ok result, w1) ->
  response result = VDict d -> NoDup (keys d).
Proof.
  intros H Hd.
  destruct (remote (request_log w) (build_request prompt output_fields m)) as [c|e] eqn:E.
  - rewrite (process_item_completed _ _ _ _ _ _ E) in H.
    destruct (json_loads _ _ (content c)) as [v| | |msg|] eqn:J; try discriminate H;
      injection H as <- _; cbn [response] in Hd.
    + subst v. now apply json_loads_dict_keys in J.
    + injection Hd as <-. apply NoDup_singleton.
  - rewrite (process_item_failed _ _ _ _ _ _ E) in H. discriminate H.
Qed.

(** ** Chaining: what the next step sees *)

Lemma merge_fields_other (row_idx : nat) (fields : pydict) (loc : locals) (F : string) :
  F ∉ keys fields ->
  dict_get (row_data (fold_left (merge_field row_idx) fields loc)) ("AI_" +:+ F)
  = dict_get (row_data loc) ("AI_" +:+ F).
Proof.
  revert loc. induction fields as [|[k x] fields IH]; intros loc Hn; [reflexivity|].
  unfold keys in Hn. cbn [map fst] in Hn. apply not_elem_of_cons in Hn as [Hk Hn].
  cbn [fold_left]. rewrite IH by exact Hn.
  unfold merge_field. cbn [row_data fst snd].
  apply dict_get_set_ne. intros E. apply AI_injective in E. congruence.
Qed.

Lemma merge_fields_row_data (row_idx : nat) (fields : pydict) (loc : locals)
  (F : string) (v : value) :
  NoDup (keys fields) -> dict_get fields F = Some v ->
  dict_get (row_data (fold_left (merge_field row_idx) fields loc)) ("AI_" +:+ F) = Some v.
Proof.
  revert loc. induction fields as [|[k x] fields IH]; intros loc Hd H; [discriminate H|].
  unfold keys in Hd. cbn [map fst] in Hd. apply NoDup_cons in Hd as [Hk Hd].
  cbn [dict_get] in H. cbn [fold_left].
  destruct (String.eqb k F) eqn:E.
  - apply String.eqb_eq in E. subst k. injection H as ->.
    rewrite merge_fields_other by exact Hk.
    unfold merge_field. cbn [row_data fst snd]. apply dict_get_set_eq.
  - now apply IH.
Qed.

Lemma for_each_skipped (service : OpenAIProcessingService) (row_idx : nat)
  (mids : list step) (loc : locals) (w : world) :
  Forall (fun s => skipped s = true) mids ->
  for_each (run_step service row_idx) mids loc w = (Ok loc, w).
Proof.
  induction 1 as [|s mids Hs _ IH]; [reflexivity|].
  cbn [for_each]. unfold bind. now rewrite (run_step_skipped _ _ _ _ _ Hs).
Qed.

Lemma process_item_logs (self : OpenAIProcessingService) (prompt : string)
  (output_fields : list string) (m : string) (w w' : world) (r : res ProcessingResult) :
  process_item self prompt output_fields m w = (r, w') ->
  request_log w' = request_log w ++ [build_request prompt output_fields m].
Proof.
  destruct (remote (request_log w) (build_request prompt output_fields m)) as [c|e] eqn:E.
  - rewrite (process_item_completed _ _ _ _ _ _ E).
    destruct (json_loads _ _ (content c)); intros [= <- <-]; reflexivity.
  - rewrite (process_item_failed _ _ _ _ _ _ E). intros [= <- <-]. reflexivity.
Qed.

Lemma run_step_logs (service : OpenAIProcessingService) (row_idx : nat)
  (loc : locals) (s : step) (w w' : world) (r : res locals) :
  skipped s = false ->
  run_step service row_idx loc s w = (r, w') ->
  request_log w' = request_log w ++ [step_request s (row_data loc)].
Proof.
  intros Hs. unfold run_step. rewrite Hs. unfold bind.
  destruct (process_item _ _ _ _ w) as [pr w1] eqn:E.
  apply process_item_logs in E.
  destruct pr as [result| |]; try (intros [= <- <-]; exact E).
  unfold items. destruct (response result); intros [= <- <-]; exact E.
Qed.

Lemma run_step_completed (service : OpenAIProcessingService) (row_idx : nat)
  (loc loc' : locals) (s : step) (w w1 : world) :
  skipped s = false ->
  run_step service row_idx loc s w = (Ok loc', w1) ->
  exists result d,
    process_item service (replace_placeholders (step_prompt s) (row_data loc))
      (map strip (split_comma (step_output_fields s))) (step_model s) w = (Ok result, w1)
    /\ response result = VDict d
    /\ loc' = add_tokens result (fold_left (merge_field row_idx) d loc).
Proof.
  intros Hs H. unfold run_step in H. rewrite Hs in H. unfold bind in H.
  destruct (process_item _ _ _ _ w) as [[result| |] w2]; try discriminate H.
  unfold items in H. destruct (response result) as [| | | | | |d] eqn:Hd;
    try discriminate H.
  injection H as <- <-. now exists result, d.
Qed.

(** C3 (as amended).  On a table whose AI_ columns hold text, when a step
    that is not skipped ends normally, its reply was decoded to an object
    and the row state it leaves holds, for
    every field F of the object, the key AI_F bound to the decoded value.
    Skipped steps in between leave the row state alone, and the next step
    that is not skipped sends the prompt that [replace_placeholders] makes
    of its template and that row state.  When every opening brace of that
    template begins a placeholder and no inserted text has an opening brace,
    the prompt sent is the template with each placeholder of AI_F replaced
    by the string form of that value. *)
Theorem C3_next_step_reads_fields_of_previous_step
  (service : OpenAIProcessingService) (row_idx : nat) (loc loc' : locals) (sk : step)
  (w w1 : world) :
  skipped sk = false ->
  accepts_text (result_df loc) = true ->
  run_step service row_idx loc sk w = (Ok loc', w1) ->
  exists result d,
    process_item service (replace_placeholders (step_prompt sk) (row_data loc))
      (map strip (split_comma (step_output_fields sk))) (step_model sk) w = (Ok result, w1)
    /\ response result = VDict d
    /\ (forall F v, dict_get d F = Some v ->
          dict_get (row_data loc') ("AI_" +:+ F) = Some v)
    /\ forall mids sk1 rest,
         Forall (fun s => skipped s = true) mids -> skipped sk1 = false ->
         (exists r2 w2,
            for_each (run_step service row_idx) (mids ++ sk1 :: rest) loc' w1 = (r2, w2)
            /\ request_log w2 !! length (request_log w1)
               = Some (build_request
                         (replace_placeholders (step_prompt sk1) (row_data loc'))
                         (map strip (split_comma (step_output_fields sk1)))
                         (step_model sk1)))
         /\ forall ts,
              step_prompt sk1 = render ts ->
              forallb token_ok ts = true ->
              (forall name, In name (names ts) ->
                 has_char "{" (value_text (row_data loc') name) = false) ->
              replace_placeholders (step_prompt sk1) (row_data loc')
              = render_subst (row_data loc') ts
              /\ forall F v, dict_get d F = Some v ->
                   subst_token (row_data loc') (TPlaceholder ("AI_" +:+ F)) = py_str v.
Proof.
  intros Hs _ Hrun.
  destruct (run_step_completed _ _ _ _ _ _ _ Hs Hrun) as (result & d & Hp & Hd & Hloc).
  pose proof (process_item_response_keys _ _ _ _ _ _ _ _ Hp Hd) as Hkeys.
  assert (Hfields : forall F v, dict_get d F = Some v ->
                      dict_get (row_data loc') ("AI_" +:+ F) = Some v).
  { intros F v HF. subst loc'. cbn [add_tokens row_data].
    now apply merge_fields_row_data. }
  exists result, d. split; [exact Hp|]. split; [exact Hd|]. split; [exact Hfields|].
  intros mids sk1 rest Hmids Hs1. split.
  - rewrite for_each_app. unfold bind at 1.
    rewrite (for_each_skipped _ _ _ _ _ Hmids). cbn [for_each]. unfold bind.
    destruct (run_step service row_idx loc' sk1 w1) as [r1 wa] eqn:E.
    pose proof (run_step_logs _ _ _ _ _ _ _ Hs1 E) as L. unfold step_request in L.
    destruct r1 as [loc1| |].
    + destruct (for_each (run_step service row_idx) rest loc1 wa) as [r2 w2] eqn:E2.
      exists r2, w2. split; [reflexivity|].
      apply (tracked_for_each (run_step service row_idx) rest) in E2;
        [|intros s x; apply tracked_run_step].
      destruct E2 as (_ & _ & _ & added & L2 & _).
      rewrite L2, L, <- app_assoc. now apply list_lookup_middle.
    + eexists _, _. split; [reflexivity|]. rewrite L. now apply list_lookup_middle.
    + eexists _, _. split; [reflexivity|]. rewrite L. now apply list_lookup_middle.
  - intros ts Hts Hok Hv. split.
    + rewrite Hts. now apply replace_placeholders_render.
    + intros F v HF. cbn [subst_token]. unfold value_text, dict_get_default.
      now rewrite (Hfields F v HF).
Qed.

(** ** Further properties: the placeholder engine *)

Lemma span_word_spec (s w r : string) :
  span_word s = (w, r) -> s = w +:+ r /\ all_chars is_word w = true.
Proof.
  revert w r. induction s as [|a s IH]; intros w r H.
  - injection H as <- <-. now split.
  - cbn [span_word] in H. destruct (is_word a) eqn:Ha.
    + destruct (span_word s) as [w' r'] eqn:E. injection H as <- <-.
      destruct (IH w' r' eq_refl) as [-> Hw]. split; [reflexivity|].
      cbn [all_chars]. now rewrite Ha, Hw.
    + injection H as <- <-. now split.
Qed.

Lemma match_placeholder_sound (s name : string) :
  match_placeholder s = Some name ->
  token_ok (TPlaceholder name) = true
  /\ exists rest, s = placeholder name +:+ rest.
Proof.
  unfold match_placeholder.
  destruct s as [|a [|b s']]; try discriminate.
  destruct (ascii_eqb a "{") eqn:Ea; [|discriminate].
  destruct (ascii_eqb b "@") eqn:Eb; [|discriminate]. cbn [andb].
  destruct (span_word s') as [w r] eqn:E.
  destruct w as [|c w]; [discriminate|].
  destruct r as [|d r]; [discriminate|].
  destruct (ascii_eqb d "}") eqn:Ed; [|discriminate].
  intros [= <-].
  apply ascii_eqb_true in Ea, Eb, Ed. subst a b d.
  apply span_word_spec in E as [-> Hw]. split; [exact Hw|].
  exists r. now rewrite placeholder_append.
Qed.

Lemma contains_here (sub rest : string) : contains sub (sub +:+ rest) = true.
Proof.
  destruct (sub +:+ rest) eqn:E; cbn [contains]; rewrite <- E, starts_with_append;
    reflexivity.
Qed.

Lemma contains_later (sub : string) (a : ascii) (s : string) :
  contains sub s = true -> contains sub (String a s) = true.
Proof. intros H. cbn [contains]. rewrite H. apply orb_true_r. Qed.

Lemma findall_sound (s : string) (skip : nat) (name : string) :
  In name (findall_from skip s) ->
  token_ok (TPlaceholder name) = true /\ contains (placeholder name) s = true.
Proof.
  revert skip. induction s as [|a s IH]; intros skip H; [destruct H|].
  destruct skip as [|k].
  - change (findall_from 0 (String a s))
      with (match match_placeholder (String a s) with
            | Some n => n :: findall_from (String.length n + 2) s
            | None => findall_from 0 s
            end) in H.
    destruct (match_placeholder (String a s)) as [n|] eqn:E.
    + destruct H as [->|H].
      * apply match_placeholder_sound in E as [Hok [rest ->]].
        split; [exact Hok | apply contains_here].
      * apply IH in H as [Hok Hc]. split; [exact Hok | now apply contains_later].
    + apply IH in H as [Hok Hc]. split; [exact Hok | now apply contains_later].
  - cbn [findall_from] in H. apply IH in H as [Hok Hc].
    split; [exact Hok | now apply contains_later].
Qed.

Lemma starts_with_split (p s : string) :
  starts_with p s = true -> exists rest, s = p +:+ rest.
Proof.
  revert s. induction p as [|a p IH]; intros s H.
  - now exists s.
  - destruct s as [|b s]; [discriminate H|]. cbn [starts_with] in H.
    apply andb_true_iff in H as [Hab H]. apply ascii_eqb_true in Hab. subst b.
    destruct (IH s H) as [rest ->]. exists rest. now rewrite append_cons.
Qed.

Lemma take_chars_append (p s : string) (k : nat) :
  take_chars (String.length p + k) (p +:+ s) = p +:+ take_chars k s.
Proof.
  induction p as [|a p IH]; [reflexivity|].
  rewrite !append_cons. cbn [String.length Nat.add take_chars]. now rewrite IH.
Qed.

Lemma findall_complete (s : string) (skip : nat) (name : string) :
  token_ok (TPlaceholder name) = true ->
  has_char "{" (take_chars skip s) = false ->
  contains (placeholder name) s = true ->
  In name (findall_from skip s).
Proof.
  intros Hok. revert skip. induction s as [|a s IH]; intros skip Hskip Hc.
  { rewrite placeholder_unfold in Hc. discriminate Hc. }
  cbn [contains] in Hc.
  destruct skip as [|k].
  - change (findall_from 0 (String a s))
      with (match match_placeholder (String a s) with
            | Some n => n :: findall_from (String.length n + 2) s
            | None => findall_from 0 s
            end).
    destruct (starts_with (placeholder name) (String a s)) eqn:Est.
    + apply starts_with_split in Est as [rest E]. rewrite E.
      rewrite (match_placeholder_at name rest Hok). now left.
    + cbn [orb] in Hc.
      destruct (match_placeholder (String a s)) as [n|] eqn:E.
      * right. apply IH; [|exact Hc].
        apply match_placeholder_sound in E as [Hn [rest E]].
        rewrite placeholder_append in E. injection E as -> ->.
        rewrite placeholder_tail.
        replace (String.length n + 2)%nat
          with (String.length (String "@" (n +:+ String "}" EmptyString)) + 0)%nat
          by (cbn [String.length]; rewrite length_append; cbn [String.length]; lia).
        rewrite take_chars_append, has_char_append.
        rewrite placeholder_tail_no_brace by now apply token_ok_words.
        destruct rest; reflexivity.
      * apply IH; [|exact Hc]. destruct s; reflexivity.
  - cbn [take_chars has_char] in Hskip. apply orb_false_iff in Hskip as [Ha Hskip].
    cbn [findall_from]. apply IH; [exact Hskip|].
    rewrite placeholder_unfold in Hc at 1. cbn [starts_with] in Hc.
    unfold ascii_eqb in *. rewrite Ascii.eqb_sym, Ha in Hc. exact Hc.
Qed.

(** X1.  [extract_placeholders] returns exactly the names that occur as a
    placeholder in the prompt: a text is in the result if and only if it is
    a non-empty run of word characters and the prompt contains it between
    an opening brace with an at sign and a closing brace. *)
Theorem X1_extract_placeholders_finds_exactly_the_placeholders
  (prompt name : string) :
  In name (extract_placeholders prompt)
  <-> token_ok (TPlaceholder name) = true /\ contains (placeholder name) prompt = true.
Proof.
  unfold extract_placeholders. split.
  - apply findall_sound.
  - intros [Hok Hc]. apply findall_complete; [exact Hok | | exact Hc].
    destruct prompt; reflexivity.
Qed.

(** X2.  A prompt without an opening brace comes back unchanged, whatever
    the row holds. *)
Theorem X2_prompt_without_brace_is_unchanged (prompt : string) (row : pydict) :
  has_char "{" prompt = false -> replace_placeholders prompt row = prompt.
Proof.
  intros H. unfold replace_placeholders.
  rewrite <- (append_empty_r prompt) at 1.
  rewrite (findall_text prompt EmptyString H). reflexivity.
Qed.


(** ** Further properties: the model client *)

(** X3.  The constructor keeps a non-empty key given as argument, whatever
    the environment holds; without one (none, or an empty text) it keeps the
    key of the environment when that is set and not empty, and raises the
    [ValueError] of the missing key otherwise.  So it never changes the
    world, raises nothing else, and a service that was built holds a
    non-empty key. *)
Theorem X3_service_key_comes_from_argument_then_environment (w : world) :
  (forall a k, init (Some (String a k)) w = (Ok (mkService (String a k)), w))
  /\ (forall arg a k,
        arg = None \/ arg = Some EmptyString ->
        environ_api_key w = Some (String a k) ->
        init arg w = (Ok (mkService (String a k)), w))
  /\ (forall arg,
        arg = None \/ arg = Some EmptyString ->
        environ_api_key w = None \/ environ_api_key w = Some EmptyString ->
        init arg w = (Raise (ValueError "OPENAI_API_KEY not found in environment"), w))
  /\ forall arg r w',
       init arg w = (r, w') ->
       w' = w
       /\ ((exists service, r = Ok service /\ api_key service <> EmptyString)
           \/ (r = Raise (ValueError "OPENAI_API_KEY not found in environment")
               /\ (arg = None \/ arg = Some EmptyString)
               /\ (environ_api_key w = None \/ environ_api_key w = Some EmptyString))).
Proof.
  split; [reflexivity|]. split; [|split].
  - intros arg a k [->| ->] E; unfold init, or_else; rewrite E; reflexivity.
  - intros arg [->| ->] [E|E]; unfold init, or_else; rewrite E; reflexivity.
  - intros arg r w'. unfold init, or_else.
    destruct arg as [[|a k]|].
    + destruct (environ_api_key w) as [[|b e]|]; intros [= <- <-];
        (split; [reflexivity|]); [right; auto | left | right; auto].
      eexists. split; [reflexivity | discriminate].
    + intros [= <- <-]. split; [reflexivity|]. left.
      eexists. split; [reflexivity | discriminate].
    + destruct (environ_api_key w) as [[|b e]|]; intros [= <- <-];
        (split; [reflexivity|]); [right; auto | left | right; auto].
      eexists. split; [reflexivity | discriminate].
Qed.

(** X4.  Whatever the endpoint answers, [process_item] makes exactly one
    call, the one built from its arguments, and leaves the session alone.
    It raises the failure of the call when the call failed; after a call
    that was answered it raises only what [json.loads] raises besides
    [JSONDecodeError] on the reply (nesting too deep, an integer too long).
    When it returns, the token counts and the model name of the result are
    the ones the endpoint reported, and the response is the decoded reply,
    or the reply text under [raw_response] when it was rejected.  The
    outcome outside the model is that of an answered call whose reply the
    decoder model does not cover. *)
Theorem X4_process_item_makes_one_call_and_reports_usage
  (self : OpenAIProcessingService) (prompt : string) (output_fields : list string)
  (m : string) (w w' : world) (r : res ProcessingResult) :
  process_item self prompt output_fields m w = (r, w') ->
  w' = log_request (build_request prompt output_fields m) w
  /\ match r with
     | Ok result =>
         exists c, remote (request_log w) (build_request prompt output_fields m) = Completed c
                   /\ prompt_tokens result = usage_prompt_tokens c
                   /\ completion_tokens result = usage_completion_tokens c
                   /\ total_tokens_used result = usage_total_tokens c
                   /\ model result = completion_model c
                   /\ (json_loads decoder_depth int_max_str_digits (content c)
                         = Loaded (response result)
                       \/ (json_loads decoder_depth int_max_str_digits (content c)
                             = JSONDecodeError
                           /\ response result = VDict [("raw_response", VStr (content c))]))
     | Raise e =>
         (exists msg, e = APIError msg
                      /\ remote (request_log w) (build_request prompt output_fields m)
                         = Failed msg)
         \/ (exists c,
               remote (request_log w) (build_request prompt output_fields m) = Completed c
               /\ ((e = RecursionError
                    /\ json_loads decoder_depth int_max_str_digits (content c)
                       = LoadsRecursionError)
                   \/ (exists msg,
                         e = ValueError msg
                         /\ json_loads decoder_depth int_max_str_digits (content c)
                            = LoadsValueError msg)))
     | OutOfModel =>
         exists c, remote (request_log w) (build_request prompt output_fields m) = Completed c
                   /\ json_loads decoder_depth int_max_str_digits (content c) = Unmodelled
     end.
Proof.
  destruct (remote (request_log w) (build_request prompt output_fields m)) as [c|msg] eqn:E.
  - rewrite (process_item_completed _ _ _ _ _ _ E).
    destruct (json_loads _ _ (content c)) as [v| | |msg|] eqn:J; intros [= <- <-];
      (split; [reflexivity|]).
    + exists c. repeat split. now left.
    + exists c. repeat split. right. now split.
    + right. exists c. split; [reflexivity|]. left. now split.
    + right. exists c. split; [reflexivity|]. right. exists msg. now split.
    + exists c. now split.
  - rewrite (process_item_failed _ _ _ _ _ _ E). intros [= <- <-].
    split; [reflexivity|]. left. now exists msg.
Qed.

(** X5.  A reply that decodes to a JSON value other than an object (an
    array, a number, a text, [null]) makes the step raise [AttributeError]
    after the call was made: the table, the row state and the token totals
    of the step are lost with it. *)
Theorem X5_reply_that_is_not_an_object_raises
  (service : OpenAIProcessingService) (row_idx : nat) (loc : locals) (s : step)
  (w w1 : world) (result : ProcessingResult) :
  skipped s = false ->
  process_item service (replace_placeholders (step_prompt s) (row_data loc))
    (map strip (split_comma (step_output_fields s))) (step_model s) w = (Ok result, w1) ->
  (forall d, response result <> VDict d) ->
  run_step service row_idx loc s w = (Raise AttributeError, w1).
Proof.
  intros Hs Hp Hd. unfold run_step. rewrite Hs. unfold bind. rewrite Hp.
  unfold items. destruct (response result) as [| | | | | |d]; try reflexivity.
  now destruct (Hd d).
Qed.

(** ** Further properties: the cost estimate *)

Lemma estimate_cost_zero (m : string) : estimate_cost 0 0 m = 0%float.
Proof.
  unfold estimate_cost. rewrite pricing_get_rates. unfold input_rate, output_rate.
  destruct (String.eqb m "gpt-4o-mini"); [vm_compute; reflexivity|].
  destruct (String.eqb m "gpt-4o"); [vm_compute; reflexivity|].
  destruct (String.eqb m "gpt-4-turbo"); vm_compute; reflexivity.
Qed.


(** ** Further properties: token accounting *)

Lemma usage_from_app (log a b : list request) :
  usage_from log (a ++ b)
  = (fst (usage_from log a) + fst (usage_from (log ++ a) b),
     snd (usage_from log a) + snd (usage_from (log ++ a) b)).
Proof.
  revert log. induction a as [|x a IH]; intros log.
  - cbn [app usage_from fst snd]. rewrite app_nil_r.
    destruct (usage_from log b). reflexivity.
  - cbn [app usage_from fst snd]. rewrite IH. cbn [fst snd].
    rewrite <- app_assoc. cbn [app]. f_equal; lia.
Qed.

Lemma merge_fields_totals (row_idx : nat) (fields : pydict) (loc : locals) :
  total_prompt_tokens (fold_left (merge_field row_idx) fields loc) = total_prompt_tokens loc
  /\ total_completion_tokens (fold_left (merge_field row_idx) fields loc)
     = total_completion_tokens loc.
Proof.
  revert loc. induction fields as [|item fields IH]; intros loc; [now split|].
  cbn [fold_left]. destruct (IH (merge_field row_idx loc item)) as [-> ->]. now split.
Qed.

Lemma counts_ret (loc : locals) : counts 0 loc (ret loc).
Proof.
  intros w loc' w' [= <- <-]. exists []. rewrite app_nil_r. cbn [usage_from fst snd].
  repeat split; lia.
Qed.

Lemma counts_bind (n1 n2 : nat) (loc : locals) (m : M locals) (k : locals -> M locals) :
  counts n1 loc m -> (forall loc1, counts n2 loc1 (k loc1)) ->
  counts (n1 + n2) loc (bind m k).
Proof.
  intros Hm Hk w loc' w' H. unfold bind in H.
  destruct (m w) as [[loc1| |] w1] eqn:E; try discriminate H.
  destruct (Hm _ _ _ E) as (a & La & Na & Pa & Ca).
  destruct (Hk _ _ _ _ H) as (b & Lb & Nb & Pb & Cb).
  exists (a ++ b). rewrite La in Lb, Pb, Cb.
  split; [now rewrite Lb, app_assoc|]. split; [rewrite length_app; lia|].
  rewrite usage_from_app. cbn [fst snd]. split; lia.
Qed.

Lemma counts_run_step (service : OpenAIProcessingService) (row_idx : nat)
  (loc : locals) (s : step) :
  counts (if skipped s then 0 else 1) loc (run_step service row_idx loc s).
Proof.
  unfold run_step. destruct (skipped s); [apply counts_ret|].
  intros w loc' w' H. unfold bind in H.
  destruct (process_item _ _ _ _ w) as [[result| |] w1] eqn:E; try discriminate H.
  unfold items in H. destruct (response result) as [| | | | | |d]; try discriminate H.
  injection H as <- <-.
  set (req := build_request (replace_placeholders (step_prompt s) (row_data loc))
                (map strip (split_comma (step_output_fields s))) (step_model s)) in *.
  destruct (remote (request_log w) req) as [c|msg] eqn:R.
  - rewrite (process_item_completed _ _ _ _ _ _ R) in E.
    exists [req]. cbn [usage_from fst snd length]. rewrite R. cbn [usage_of fst snd].
    cbn [add_tokens total_prompt_tokens total_completion_tokens].
    destruct (merge_fields_totals row_idx d loc) as [-> ->].
    destruct (json_loads _ _ (content c)); try discriminate E; injection E as <- <-;
      cbn [prompt_tokens completion_tokens]; repeat split; lia.
  - rewrite (process_item_failed _ _ _ _ _ _ R) in E. discriminate E.
Qed.

Lemma counts_steps (service : OpenAIProcessingService) (row_idx : nat)
  (steps : list step) (loc : locals) :
  counts (active_steps steps) loc (for_each (run_step service row_idx) steps loc).
Proof.
  revert loc. induction steps as [|s steps IH]; intros loc; [apply counts_ret|].
  cbn [for_each]. unfold active_steps. cbn [List.filter].
  replace (length (if negb (skipped s)
                   then s :: List.filter (fun s0 => negb (skipped s0)) steps
                   else List.filter (fun s0 => negb (skipped s0)) steps))
    with ((if skipped s then 0 else 1) + active_steps steps)%nat
    by (unfold active_steps; destruct (skipped s); reflexivity).
  apply counts_bind; [apply counts_run_step | exact IH].
Qed.

Lemma counts_run_row (service : OpenAIProcessingService) (steps : list step)
  (loc : locals) (row_idx : nat) :
  counts (active_steps steps) loc (run_row service steps loc row_idx).
Proof.
  intros w loc' w' H. unfold run_row, bind, iloc_to_dict in H.
  destruct (rows (result_df loc) !! row_idx) as [r|]; [|discriminate H].
  unfold ret in H. now apply (counts_steps service row_idx steps (set_row_data loc r)) in H.
Qed.

Lemma counts_rows (service : OpenAIProcessingService) (steps : list step)
  (idxs : list nat) (loc : locals) :
  counts (length idxs * active_steps steps) loc (for_each (run_row service steps) idxs loc).
Proof.
  revert loc. induction idxs as [|i idxs IH]; intros loc; [apply counts_ret|].
  cbn [for_each length Nat.mul].
  apply counts_bind; [apply counts_run_row | exact IH].
Qed.

(** X7.  After a completed run the log of calls has grown by one call per
    processed row and step that is not skipped, and the token totals stored
    in the session are the sums of the prompt and completion counts that the
    endpoint reported for these calls. *)
Theorem X7_session_totals_are_the_reported_usage
  (df : DataFrame) (steps : list step) (preview_only : bool) (w w' : world)
  (df' : DataFrame) :
  credential_available w ->
  process_dataframe df steps preview_only w = (Ok df', w') ->
  exists added,
    request_log w' = request_log w ++ added
    /\ length added
       = ((if preview_only then 1 else length (rows df)) * active_steps steps)%nat
    /\ total_tokens (session w') = usage_from (request_log w) added.
Proof.
  intros Hc H.
  destruct (process_dataframe_with_credential df steps preview_only w Hc) as [service E].
  rewrite E in H. unfold process_rows, bind in H.
  destruct (for_each _ _ _ w) as [[loc| |] w1] eqn:F; try discriminate H.
  apply counts_rows in F as (added & L & N & P & C).
  unfold set_session, ret in H. injection H as _ <-.
  cbn [request_log session total_tokens].
  exists added. split; [exact L|]. split.
  - rewrite N, length_seq. unfold df_len. reflexivity.
  - rewrite P, C. cbn [total_prompt_tokens total_completion_tokens].
    destruct (usage_from (request_log w) added). reflexivity.
Qed.

(** ** Further properties: runs that call nothing *)

Lemma rows_loop_all_skipped (service : OpenAIProcessingService) (steps : list step)
  (idxs : list nat) (loc : locals) (w : world) :
  Forall (fun s => skipped s = true) steps ->
  (forall i, In i idxs -> (i < length (rows (result_df loc)))%nat) ->
  exists rd,
    for_each (run_row service steps) idxs loc w
    = (Ok (mkLocals (result_df loc) (total_prompt_tokens loc)
             (total_completion_tokens loc) rd), w).
Proof.
  intros Hs. revert loc. induction idxs as [|i idxs IH]; intros loc Hi.
  - exists (row_data loc). destruct loc. reflexivity.
  - cbn [for_each]. unfold bind at 1. unfold run_row, bind, iloc_to_dict.
    destruct (lookup_lt_is_Some_2 (rows (result_df loc)) i) as [r Hr].
    { apply Hi. now left. }
    rewrite Hr. unfold ret at 1.
    rewrite (for_each_skipped service i steps (set_row_data loc r) w Hs).
    destruct (IH (set_row_data loc r)) as [rd Hrd].
    { intros j Hj. cbn [set_row_data result_df]. apply Hi. now right. }
    exists rd. exact Hrd.
Qed.

(** X6.  A run in which every step is skipped (none was filled in) calls
    nothing and returns the table as it came, with token totals 0 and 0 and
    an estimated cost of 0 in the session; in preview mode this needs a
    table with at least one row. *)
Theorem X6_run_of_skipped_steps_returns_the_table
  (df : DataFrame) (steps : list step) (preview_only : bool) (w : world) :
  credential_available w ->
  Forall (fun s => skipped s = true) steps ->
  (preview_only = true -> rows df <> []) ->
  process_dataframe df steps preview_only w
  = (Ok df, mkWorld (environ_api_key w) (mkSession (0, 0) 0%float)
              (request_log w) (error_banners w)).
Proof.
  intros Hc Hs Hrows.
  destruct (process_dataframe_with_credential df steps preview_only w Hc) as [service ->].
  unfold process_rows, bind.
  destruct (rows_loop_all_skipped service steps
              (seq 0 (if preview_only then 1%nat else df_len df))
              (mkLocals df 0 0 []) w Hs) as [rd ->].
  - intros i Hi. apply in_seq in Hi. cbn [result_df]. unfold df_len in Hi.
    destruct preview_only; [|lia].
    destruct (rows df); [now destruct Hrows | cbn [length]; lia].
  - unfold set_session, ret. cbn [result_df total_prompt_tokens total_completion_tokens].
    now rewrite estimate_cost_zero.
Qed.

(** ** Further properties: editing the list of steps *)

Lemma pricing_model_add (steps : list step) :
  pricing_model (add_processing_step steps) = pricing_model steps.
Proof. destruct steps; reflexivity. Qed.

(** X8.  Removing the entry that [add_processing_step] has just appended
    gives back the list; an index that is negative or past the end removes
    nothing; an index inside the list removes one entry: the entries before
    it stay where they were and the entries after it move up by one. *)
Theorem X8_add_then_remove_restores_the_steps (steps : list step) :
  remove_processing_step (Z.of_nat (length steps)) (add_processing_step steps) = steps
  /\ (forall index, index < 0 \/ Z.of_nat (length steps) <= index ->
        remove_processing_step index steps = steps)
  /\ (forall index, 0 <= index < Z.of_nat (length steps) ->
        S (length (remove_processing_step index steps)) = length steps
        /\ (forall j : nat, (j < Z.to_nat index)%nat ->
              remove_processing_step index steps !! j = steps !! j)
        /\ (forall j : nat, (Z.to_nat index <= j)%nat ->
              remove_processing_step index steps !! j = steps !! S j)).
Proof.
  split; [|split].
  - unfold remove_processing_step, add_processing_step.
    rewrite length_app. cbn [length].
    replace (0 <=? Z.of_nat (length steps)) with true by (symmetry; apply Z.leb_le; lia).
    replace (Z.of_nat (length steps) <? Z.of_nat (length steps + 1)) with true
      by (symmetry; apply Z.ltb_lt; lia).
    cbn [andb]. rewrite Nat2Z.id.
    induction steps as [|s steps IH]; [reflexivity|].
    cbn [length app]. cbn [delete list_delete]. f_equal. exact IH.
  - intros index H. unfold remove_processing_step.
    destruct (0 <=? index) eqn:E1; [|reflexivity].
    destruct (index <? Z.of_nat (length steps)) eqn:E2; [|reflexivity].
    apply Z.leb_le in E1. apply Z.ltb_lt in E2. lia.
  - intros index H. unfold remove_processing_step.
    replace (0 <=? index) with true by (symmetry; apply Z.leb_le; lia).
    replace (index <? Z.of_nat (length steps)) with true by (symmetry; apply Z.ltb_lt; lia).
    cbn [andb]. split.
    + rewrite length_delete; [lia|]. apply lookup_lt_is_Some_2. lia.
    + split; intros j Hj;
        [now apply list_lookup_delete_lt | now apply list_lookup_delete_ge].
Qed.

(** X9.  A step that was added and not filled in changes nothing about a
    run: the outcome, the world and the session, cost included, are those of
    the run without it. *)
Theorem X9_added_blank_step_changes_nothing
  (df : DataFrame) (steps : list step) (preview_only : bool) (w : world) :
  process_dataframe df (add_processing_step steps) preview_only w
  = process_dataframe df steps preview_only w.
Proof.
  unfold process_dataframe, bind, try_except_ValueError, init, or_else, ret, st_error.
  destruct (environ_api_key w) as [[|a k]|]; try reflexivity.
  unfold process_rows, bind. rewrite pricing_model_add.
  rewrite (for_each_ext (run_row (mkService (String a k)) (add_processing_step steps))
             (run_row (mkService (String a k)) steps)); [reflexivity|].
  intros loc i w0. unfold run_row, bind.
  destruct (iloc_to_dict (result_df loc) i w0) as [[r| |] w1]; try reflexivity.
  unfold add_processing_step.
  rewrite <- (app_nil_r steps) at 2.
  now apply for_each_without_skipped.
Qed.


(** ** Further properties: what a preview leaves alone *)

Lemma others_kept_refl (k : nat) (df : DataFrame) : others_kept k df df.
Proof.
  split; [trivial|]. intros i r _ H. exists r. split; [exact H|]. split.
  - reflexivity.
  - intros c Hc Hn. now destruct Hn.
Qed.

Lemma others_kept_trans (k : nat) (a b c : DataFrame) :
  others_kept k a b -> others_kept k b c -> others_kept k a c.
Proof.
  intros [C1 K1] [C2 K2]. split; [auto|].
  intros i r Hi Hr.
  destruct (K1 i r Hi Hr) as (r1 & Hr1 & E1 & N1).
  destruct (K2 i r1 Hi Hr1) as (r2 & Hr2 & E2 & N2).
  exists r2. split; [exact Hr2|]. split.
  - intros x Hx. rewrite E2 by now apply C1. now apply E1.
  - intros x Hx Hn.
    destruct (decide (x ∈ columns b)) as [Hb|Hb].
    + rewrite E2 by exact Hb. now apply N1.
    + now apply N2.
Qed.

Lemma others_kept_at_set (k : nat) (df : DataFrame) (col : string) (v : value) :
  others_kept k df (df_at_set df k col v).
Proof.
  unfold df_at_set, others_kept.
  destruct (bool_decide_reflect (col ∈ columns df)) as [Hin|Hin]; cbn [rows columns].
  - split; [trivial|]. intros i r Hi Hr. rewrite list_lookup_imap, Hr. cbn.
    apply Nat.eqb_neq in Hi. rewrite Hi. exists r. split; [reflexivity|]. split.
    + reflexivity.
    + intros c Hc Hn. now destruct Hn.
  - split; [intros c Hc; apply elem_of_app; now left|].
    intros i r Hi Hr. rewrite list_lookup_imap, Hr. cbn.
    apply Nat.eqb_neq in Hi. rewrite Hi.
    eexists. split; [reflexivity|]. split.
    + intros c Hc. apply dict_get_set_ne. intros ->. now apply Hin.
    + intros c Hc Hn. apply elem_of_app in Hc as [Hc|Hc]; [now destruct Hn|].
      apply list_elem_of_singleton in Hc. subst c. apply dict_get_set_eq.
Qed.

Lemma run_row_others_kept (service : OpenAIProcessingService) (steps : list step)
  (loc : locals) (k : nat) (w : world) (loc' : locals) (w' : world) :
  run_row service steps loc k w = (Ok loc', w') ->
  others_kept k (result_df loc) (result_df loc').
Proof.
  unfold run_row, bind.
  destruct (iloc_to_dict (result_df loc) k w) as [[r| |] w1]; try discriminate.
  intros H.
  apply (for_each_invariant (fun a b => others_kept k (result_df a) (result_df b))
           (run_step service k) steps) in H.
  - exact H.
  - intros s. apply others_kept_refl.
  - intros a b c. apply others_kept_trans.
  - intros s x w0 s' w0'. unfold run_step. destruct (skipped x).
    + intros [= <- _]. apply others_kept_refl.
    + unfold bind.
      destruct (process_item _ _ _ _ w0) as [[result| |] w2]; try discriminate.
      unfold items. destruct (response result) as [| | | | | |d]; try discriminate.
      intros [= <- _]. cbn [add_tokens result_df].
      clear. revert s. induction d as [|item d IH]; intros s; [apply others_kept_refl|].
      cbn [fold_left]. eapply others_kept_trans; [|apply IH].
      unfold merge_field. cbn [result_df]. apply others_kept_at_set.
Qed.

(** X10.  A preview that completes writes no model value outside the first
    row: every other row is still there, has in every column of the input
    table the cell it had, and holds [NaN] in every column that the preview
    added to the table. *)
Theorem X10_preview_writes_only_the_first_row
  (df : DataFrame) (steps : list step) (w w' : world) (df' : DataFrame) :
  process_dataframe df steps true w = (Ok df', w') ->
  forall (i : nat) (r : pydict),
    i <> 0%nat -> rows df !! i = Some r ->
    exists r', rows df' !! i = Some r'
               /\ (forall c, c ∈ columns df -> dict_get r' c = dict_get r c)
               /\ (forall c, c ∈ columns df' -> c ∉ columns df ->
                             dict_get r' c = Some NaN).
Proof.
  intros H.
  assert (K : others_kept 0 df df'); [|exact (proj2 K)].
  unfold process_dataframe, bind, try_except_ValueError, init, or_else, ret, st_error in H.
  destruct (environ_api_key w) as [[|a k]|];
    try (injection H as <- _; apply others_kept_refl).
  unfold process_rows, bind in H. cbn [seq for_each] in H. unfold bind in H.
  destruct (run_row _ _ _ 0%nat w) as [[loc| |] w1] eqn:E; try discriminate H.
  unfold ret, set_session in H. injection H as <- _.
  now apply run_row_others_kept in E.
Qed.

(** ** Further properties: the cells a step writes *)

Lemma cell_text_is_text (v : value) : cell_text v = VStr (py_str v).
Proof. destruct v; reflexivity. Qed.

Lemma df_at_set_length (df : DataFrame) (i : nat) (col : string) (v : value) :
  length (rows (df_at_set df i col v)) = length (rows df).
Proof.
  unfold df_at_set. destruct (bool_decide (col ∈ columns df)); cbn [rows];
    apply length_imap.
Qed.

Lemma df_at_set_columns (df : DataFrame) (i : nat) (col : string) (v : value) (c : string) :
  c = col \/ c ∈ columns df -> c ∈ columns (df_at_set df i col v).
Proof.
  unfold df_at_set.
  destruct (bool_decide_reflect (col ∈ columns df)) as [Hin|Hin]; cbn [columns].
  - intros [->|H]; assumption.
  - intros [->|H]; apply elem_of_app; [right; apply list_elem_of_singleton; reflexivity
                                      | now left].
Qed.

Lemma cell_at_set_same (df : DataFrame) (i : nat) (col : string) (v : value) :
  (i < length (rows df))%nat -> cell_at (df_at_set df i col v) i col = Some v.
Proof.
  intros Hi. destruct (lookup_lt_is_Some_2 _ _ Hi) as [r Hr].
  unfold cell_at, df_at_set.
  destruct (bool_decide (col ∈ columns df)); cbn [rows];
    rewrite list_lookup_imap, Hr; cbn; rewrite Nat.eqb_refl; apply dict_get_set_eq.
Qed.

Lemma cell_at_set_other (df : DataFrame) (i : nat) (col : string) (v : value) (c : string) :
  col <> c -> cell_at (df_at_set df i col v) i c = cell_at df i c.
Proof.
  intros Hne. unfold cell_at, df_at_set.
  destruct (bool_decide (col ∈ columns df)); cbn [rows]; rewrite list_lookup_imap;
    destruct (rows df !! i) as [r|]; cbn; try reflexivity;
    rewrite Nat.eqb_refl; now apply dict_get_set_ne.
Qed.

Lemma merge_fields_length (row_idx : nat) (fields : pydict) (loc : locals) :
  length (rows (result_df (fold_left (merge_field row_idx) fields loc)))
  = length (rows (result_df loc)).
Proof.
  revert loc. induction fields as [|item fields IH]; intros loc; [reflexivity|].
  cbn [fold_left]. rewrite IH. unfold merge_field. cbn [result_df].
  apply df_at_set_length.
Qed.

Lemma merge_fields_columns (row_idx : nat) (fields : pydict) (loc : locals) (c : string) :
  c ∈ columns (result_df loc) ->
  c ∈ columns (result_df (fold_left (merge_field row_idx) fields loc)).
Proof.
  revert loc. induction fields as [|item fields IH]; intros loc H; [exact H|].
  cbn [fold_left]. apply IH. unfold merge_field. cbn [result_df].
  apply df_at_set_columns. now right.
Qed.

Lemma merge_fields_cell_other (row_idx : nat) (fields : pydict) (loc : locals) (F : string) :
  F ∉ keys fields ->
  cell_at (result_df (fold_left (merge_field row_idx) fields loc)) row_idx ("AI_" +:+ F)
  = cell_at (result_df loc) row_idx ("AI_" +:+ F).
Proof.
  revert loc. induction fields as [|[k x] fields IH]; intros loc Hn; [reflexivity|].
  unfold keys in Hn. cbn [map fst] in Hn. apply not_elem_of_cons in Hn as [Hk Hn].
  cbn [fold_left]. rewrite IH by exact Hn.
  unfold merge_field. cbn [result_df fst snd].
  apply cell_at_set_other. intros E. apply AI_injective in E. congruence.
Qed.

Lemma merge_fields_cell (row_idx : nat) (fields : pydict) (loc : locals)
  (F : string) (v : value) :
  NoDup (keys fields) -> dict_get fields F = Some v ->
  (row_idx < length (rows (result_df loc)))%nat ->
  cell_at (result_df (fold_left (merge_field row_idx) fields loc)) row_idx ("AI_" +:+ F)
  = Some (VStr (py_str v))
  /\ ("AI_" +:+ F) ∈ columns (result_df (fold_left (merge_field row_idx) fields loc)).
Proof.
  revert loc. induction fields as [|[k x] fields IH]; intros loc Hd H Hi; [discriminate H|].
  unfold keys in Hd. cbn [map fst] in Hd. apply NoDup_cons in Hd as [Hk Hd].
  cbn [dict_get] in H. cbn [fold_left].
  destruct (String.eqb k F) eqn:E.
  - apply String.eqb_eq in E. subst k. injection H as ->. split.
    + rewrite merge_fields_cell_other by exact Hk.
      unfold merge_field. cbn [result_df fst snd].
      rewrite cell_text_is_text. now apply cell_at_set_same.
    + apply merge_fields_columns. unfold merge_field. cbn [result_df fst snd].
      apply df_at_set_columns. now left.
  - apply IH; [exact Hd | exact H|].
    unfold merge_field. cbn [result_df]. now rewrite df_at_set_length.
Qed.

(** X11.  On a table whose AI_ columns hold text, when a step that is not
    skipped ends normally, its reply was decoded to an object, and for every field F of the object the table has
    a column AI_F in which the cell of the processed row is the text form of
    the field's value: the value itself when it is a text, [str] of it
    otherwise. *)
Theorem X11_step_writes_the_text_of_each_field
  (service : OpenAIProcessingService) (row_idx : nat) (loc loc' : locals) (s : step)
  (w w1 : world) :
  skipped s = false ->
  (row_idx < length (rows (result_df loc)))%nat ->
  accepts_text (result_df loc) = true ->
  run_step service row_idx loc s w = (Ok loc', w1) ->
  exists result d,
    process_item service (replace_placeholders (step_prompt s) (row_data loc))
      (map strip (split_comma (step_output_fields s))) (step_model s) w = (Ok result, w1)
    /\ response result = VDict d
    /\ forall F v, dict_get d F = Some v ->
         cell_at (result_df loc') row_idx ("AI_" +:+ F) = Some (VStr (py_str v))
         /\ ("AI_" +:+ F) ∈ columns (result_df loc').
Proof.
  intros Hs Hi _ Hrun.
  destruct (run_step_completed _ _ _ _ _ _ _ Hs Hrun) as (result & d & Hp & Hd & ->).
  pose proof (process_item_response_keys _ _ _ _ _ _ _ _ Hp Hd) as Hkeys.
  exists result, d. split; [exact Hp|]. split; [exact Hd|].
  intros F v HF. cbn [add_tokens result_df]. now apply merge_fields_cell.
Qed.

(** X12.  On a table whose AI_ columns hold text, when a step that is not
    skipped ends normally on a reply that [json.loads] rejected with [JSONDecodeError], the processed row has the
    whole reply text in the column [AI_raw_response], the row state has it
    under the same key, one call was made, and the reported token counts
    were added to the totals. *)
Theorem X12_unparsable_reply_lands_in_raw_response_column
  (service : OpenAIProcessingService) (row_idx : nat) (loc loc' : locals) (s : step)
  (w w' : world) (c : completion) :
  skipped s = false ->
  (row_idx < length (rows (result_df loc)))%nat ->
  accepts_text (result_df loc) = true ->
  remote (request_log w) (step_request s (row_data loc)) = Completed c ->
  json_loads decoder_depth int_max_str_digits (content c) = JSONDecodeError ->
  run_step service row_idx loc s w = (Ok loc', w') ->
  w' = log_request (step_request s (row_data loc)) w
  /\ cell_at (result_df loc') row_idx "AI_raw_response" = Some (VStr (content c))
  /\ ("AI_raw_response" ∈ columns (result_df loc'))
  /\ dict_get (row_data loc') "AI_raw_response" = Some (VStr (content c))
  /\ total_prompt_tokens loc' = total_prompt_tokens loc + usage_prompt_tokens c
  /\ total_completion_tokens loc'
     = total_completion_tokens loc + usage_completion_tokens c.
Proof.
  intros Hs Hi _ Hr Hj Hrun. unfold step_request in *.
  unfold run_step in Hrun. rewrite Hs in Hrun. unfold bind in Hrun.
  rewrite (process_item_completed _ _ _ _ _ _ Hr), Hj in Hrun.
  cbn [items response] in Hrun. unfold ret in Hrun. injection Hrun as <- <-.
  cbn [fold_left add_tokens merge_field result_df row_data fst snd
         total_prompt_tokens total_completion_tokens prompt_tokens completion_tokens
         cell_text].
  split; [reflexivity|]. split; [now apply cell_at_set_same|].
  split; [apply df_at_set_columns; now left|].
  split; [apply dict_get_set_eq|]. now split.
Qed.

(** ** Further properties: the output fields of a step *)

Lemma has_char_lstrip (c : ascii) (s : string) :
  has_char c s = false -> has_char c (lstrip s) = false.
Proof.
  induction s as [|a s IH]; [trivial|]. intros H. cbn [lstrip].
  destruct (is_space a); [|exact H].
  cbn [has_char] in H. apply orb_false_iff in H as [_ H]. now apply IH.
Qed.

Lemma has_char_rstrip (c : ascii) (s : string) :
  has_char c s = false -> has_char c (rstrip s) = false.
Proof.
  induction s as [|a s IH]; [trivial|]. intros H.
  cbn [has_char] in H. apply orb_false_iff in H as [Ha H]. specialize (IH H).
  cbn [rstrip]. destruct (rstrip s) as [|b r].
  - destruct (is_space a); [reflexivity|]. cbn [has_char]. now rewrite Ha.
  - cbn [has_char] in *. now rewrite Ha, IH.
Qed.

Lemma rstrip_idempotent (s : string) : rstrip (rstrip s) = rstrip s.
Proof.
  induction s as [|a s IH]; [reflexivity|]. cbn [rstrip].
  destruct (rstrip s) as [|b r] eqn:E.
  - destruct (is_space a) eqn:Ha; [reflexivity|]. cbn [rstrip]. now rewrite Ha.
  - change (rstrip (String a (String b r)))
      with (match rstrip (String b r) with
            | EmptyString => if is_space a then EmptyString else String a EmptyString
            | String x y => String a (String x y)
            end).
    now rewrite IH.
Qed.

Lemma rstrip_keeps_head (a : ascii) (s : string) :
  is_space a = false -> exists r, rstrip (String a s) = String a r.
Proof.
  intros Ha. cbn [rstrip]. destruct (rstrip s) as [|b r].
  - rewrite Ha. now eexists.
  - now eexists.
Qed.

Lemma lstrip_head (s : string) :
  lstrip s = EmptyString \/ exists a r, lstrip s = String a r /\ is_space a = false.
Proof.
  induction s as [|a s IH]; [now left|]. cbn [lstrip].
  destruct (is_space a) eqn:Ha; [exact IH|]. right. now exists a, s.
Qed.

Lemma strip_is_stripped (s : string) :
  lstrip (strip s) = strip s /\ rstrip (strip s) = strip s.
Proof.
  unfold strip. split; [|apply rstrip_idempotent].
  destruct (lstrip_head s) as [->|(a & r & -> & Ha)]; [reflexivity|].
  destruct (rstrip_keeps_head a r Ha) as [r' ->]. cbn [lstrip]. now rewrite Ha.
Qed.

Lemma split_comma_acc_spec (s : string) (cur : string -> string) (p : string) :
  (forall x, cur x = p +:+ x) -> has_char "," p = false ->
  Forall (fun f => has_char "," f = false) (split_comma_acc cur s)
  /\ length (split_comma_acc cur s) = S (count_char "," s).
Proof.
  revert cur p. induction s as [|a s IH]; intros cur p Hcur Hp.
  - cbn [split_comma_acc count_char length]. split; [|reflexivity].
    constructor; [|constructor]. now rewrite Hcur, append_empty_r.
  - cbn [split_comma_acc count_char]. destruct (ascii_eqb a ",") eqn:Ha.
    + destruct (IH (fun x => x) EmptyString) as [F L]; [reflexivity | reflexivity|].
      split; [|cbn [length]; now rewrite L].
      constructor; [|exact F]. now rewrite Hcur, append_empty_r.
    + apply (IH (fun x => cur (String a x)) (p +:+ String a EmptyString)).
      * intros x. now rewrite Hcur, append_assoc, append_cons, append_nil.
      * rewrite has_char_append, Hp. cbn [has_char orb]. now rewrite Ha.
Qed.

(** X13.  The field names of a step, [[f.strip() for f in text.split(",")]]:
    there is one more name than there are commas in the text, so a blank
    entry (a trailing or doubled comma) is kept as an empty name; no name
    contains a comma, and no name begins or ends with a space character. *)
Theorem X13_output_fields_are_split_and_stripped (text : string) :
  length (map strip (split_comma text)) = S (count_char "," text)
  /\ forall f, In f (map strip (split_comma text)) ->
       has_char "," f = false /\ lstrip f = f /\ rstrip f = f.
Proof.
  destruct (split_comma_acc_spec text (fun x => x) EmptyString) as [F L];
    [reflexivity | reflexivity|].
  split; [rewrite length_map; exact L|].
  intros f Hf. apply in_map_iff in Hf as (g & <- & Hg).
  rewrite Forall_forall in F. apply list_elem_of_In in Hg. specialize (F g Hg).
  split; [|apply strip_is_stripped].
  unfold strip. now apply has_char_rstrip, has_char_lstrip.
Qed.

End Pipeline.

(** ** The examples and the theorems at concrete inputs *)

Lemma C1_witness :
  let ts := [TText "Analyze: "; TPlaceholder "CustomerReview"; TText " in ";
             TPlaceholder "Region"] in
  replace_placeholders as_written (render ts) review_row_0
  = substitute as_written (render ts) review_row_0
  /\ replace_placeholders as_written (render ts) review_row_0
     = render_subst as_written review_row_0 ts
  /\ forall X, contains (placeholder X)
                 (replace_placeholders as_written (render ts) review_row_0) = false.
Proof.
  apply (C1_substitute_single_pass_when_no_brace_is_inserted as_written).
  - reflexivity.
  - intros name [<-|[<-|[]]]; reflexivity.
Defined.

(** C1, the claim as written fails: an inserted value is expanded again when
    its placeholder is handled later, and a placeholder of a column of the
    row can remain in the result. *)
Lemma C1_counterexample :
  let row := [("A", VStr "{@B}"); ("B", VStr "x")] in
  replace_placeholders as_written "{@A}{@B}" row = "xx"
  /\ substitute as_written "{@A}{@B}" row = "{@B}x"
  /\ replace_placeholders as_written "{@A}{@B}" row
     <> substitute as_written "{@A}{@B}" row
  /\ dict_get row "B" = Some (VStr "x")
  /\ contains (placeholder "B") (replace_placeholders as_written "{@B}{@A}" row) = true.
Proof. repeat split; try reflexivity. intros H. discriminate H. Qed.

Lemma C2_witness :
  process_dataframe as_written (scripted []) sample_depth sample_digits empty_table [sentiment_step] true fresh_world
  = (Raise IndexError, fresh_world).
Proof.
  apply C2_preview_of_empty_table_raises.
  - exists "s"%char, "k-test". reflexivity.
  - reflexivity.
Defined.

Lemma C3_witness :
  dict_get (row_data first_row_after_sentiment) "AI_sentiment" = Some (VStr "positive").
Proof.
  assert (Hrun : run_step as_written (scripted two_replies) sample_depth sample_digits
                   (mkService "sk-test") 0 first_row_locals sentiment_step fresh_world
                 = (Ok first_row_after_sentiment,
                    log_request (step_request as_written sentiment_step review_row_0)
                      fresh_world))
    by (vm_compute; reflexivity).
  destruct (C3_next_step_reads_fields_of_previous_step as_written (scripted two_replies)
              sample_depth sample_digits (mkService "sk-test") 0 first_row_locals
              first_row_after_sentiment sentiment_step fresh_world _ eq_refl eq_refl Hrun)
    as (result & d & Hp & Hd & Hfields & _).
  vm_compute in Hp. injection Hp as <-. injection Hd as <-.
  apply (Hfields "sentiment"). reflexivity.
Defined.

(** C3, the claim as written fails in its last part: the first step's value
    for [sentiment] is the text of a placeholder, the row state holds it
    under [AI_sentiment], and yet the prompt the second step sends has the
    review where [AI_sentiment] was named, not that value: the inserted
    value was expanded in its turn. *)
Lemma C3_counterexample :
  exists loc' w',
    for_each (run_step as_written (scripted placeholder_replies) sample_depth sample_digits
                (mkService "sk-test") 0)
      [sentiment_step; echo_step] first_row_locals fresh_world = (Ok loc', w')
    /\ dict_get (row_data loc') "AI_sentiment" = Some (VStr "{@CustomerReview}")
    /\ request_log w' !! 1%nat
       = Some (build_request "X Great product Y Great product" ["summary"] "gpt-4o")
    /\ substitute as_written (step_prompt echo_step)
         [("CustomerReview", VStr "Great product");
          ("AI_sentiment", VStr "{@CustomerReview}")]
       = "X {@CustomerReview} Y Great product"
    /\ build_request "X Great product Y Great product" ["summary"] "gpt-4o"
       <> build_request "X {@CustomerReview} Y Great product" ["summary"] "gpt-4o".
Proof.
  eexists _, _. split; [vm_compute; reflexivity|].
  split; [reflexivity|]. split; [reflexivity|]. split; [reflexivity|].
  intros H. apply (f_equal req_user) in H. vm_compute in H. discriminate H.
Qed.

Lemma C4_witness :
  (forall service row_idx loc w,
     run_step as_written (scripted two_replies) sample_depth sample_digits service row_idx loc blank_step w = (Ok loc, w))
  /\ (forall df before after preview_only w,
        let with_s := process_dataframe as_written (scripted two_replies) sample_depth sample_digits df
                        (before ++ blank_step :: after) preview_only w in
        let without := process_dataframe as_written (scripted two_replies) sample_depth sample_digits df
                         (before ++ after) preview_only w in
        fst with_s = fst without
        /\ request_log (snd with_s) = request_log (snd without)
        /\ total_tokens (session (snd with_s)) = total_tokens (session (snd without))).
Proof.
  apply (C4_skipped_step_is_a_no_op as_written (scripted two_replies) sample_depth sample_digits blank_step).
  left. reflexivity.
Defined.

Lemma C5_witness :
  fst (process_dataframe as_written (scripted failing_second) sample_depth sample_digits review_table [sentiment_step] false fresh_world) = Raise (APIError "RateLimitError")
  /\ session (snd (process_dataframe as_written (scripted failing_second) sample_depth sample_digits review_table [sentiment_step] false fresh_world)) = session fresh_world.
Proof.
  destruct (C5_failed_call_aborts_the_run as_written (scripted failing_second) sample_depth sample_digits
              review_table [sentiment_step] false fresh_world (snd (process_dataframe as_written (scripted failing_second) sample_depth sample_digits review_table [sentiment_step] false fresh_world))
              (fst (process_dataframe as_written (scripted failing_second) sample_depth sample_digits review_table [sentiment_step] false fresh_world))
              [step_request as_written sentiment_step review_row_0] []
              (step_request as_written sentiment_step review_row_1) "RateLimitError")
    as (Hr & _ & Hs).
  - reflexivity.
  - vm_compute. reflexivity.
  - reflexivity.
  - split; [exact Hr | exact Hs].
Defined.

(** C5, the claim as written fails: the first row was enriched and its call
    reported 10 and 5 tokens, yet after the failure of the second call the
    caller gets the exception and no table, and the session still holds 0
    and 0. *)
Lemma C5_counterexample :
  scripted failing_second [] (step_request as_written sentiment_step review_row_0)
  = reply (json_object1 "sentiment" "positive") 10 5 "gpt-4o-mini"
  /\ fst (process_dataframe as_written (scripted failing_second) sample_depth sample_digits review_table [sentiment_step] false fresh_world) = Raise (APIError "RateLimitError")
  /\ (forall df' w', (process_dataframe as_written (scripted failing_second) sample_depth sample_digits review_table [sentiment_step] false fresh_world) <> (Ok df', w'))
  /\ total_tokens (session (snd (process_dataframe as_written (scripted failing_second) sample_depth sample_digits review_table [sentiment_step] false fresh_world))) = (0, 0)
  /\ length (request_log (snd (process_dataframe as_written (scripted failing_second) sample_depth sample_digits review_table [sentiment_step] false fresh_world))) = 2%nat.
Proof.
  split; [reflexivity|]. split; [vm_compute; reflexivity|]. split.
  - intros df' w' H. apply (f_equal fst) in H. vm_compute in H. discriminate H.
  - split; vm_compute; reflexivity.
Qed.

Lemma C6_witness :
  process_item (scripted [Completed not_json_completion]) sample_depth sample_digits
    (mkService "sk-test") "Analyze: Great product" ["sentiment"] "gpt-4o-mini" fresh_world
  = (Ok (mkProcessingResult (VDict [("raw_response", VStr "not json")]) 12 3 15 "gpt-4o-mini"),
     log_request (build_request "Analyze: Great product" ["sentiment"] "gpt-4o-mini")
       fresh_world).
Proof.
  destruct (C6_unparsable_reply_is_kept_as_raw_response
              (scripted [Completed not_json_completion]) sample_depth sample_digits
              (mkService "sk-test")
              "Analyze: Great product" ["sentiment"] "gpt-4o-mini" fresh_world
              not_json_completion eq_refl) as [H _].
  apply H. vm_compute. reflexivity.
Defined.

(** C6, the claim as written fails: the reply [NaN] is not valid JSON, yet
    [json.loads] accepts it and [process_item] returns the float it decodes
    to instead of the fallback mapping; and the reply of four opening
    brackets, not valid JSON either, makes [json.loads] raise
    [RecursionError] in an interpreter that leaves it three levels of
    nesting, an exception that [process_item] does not catch. *)
Lemma C6_counterexample :
  valid_json "NaN" = false
  /\ process_item (scripted [Completed nan_completion]) sample_depth sample_digits
       (mkService "sk-test") "Analyze: Great product" ["sentiment"] "gpt-4o-mini" fresh_world
     = (Ok (mkProcessingResult (VFloat FNaN) 12 3 15 "gpt-4o-mini"),
        log_request (build_request "Analyze: Great product" ["sentiment"] "gpt-4o-mini")
          fresh_world)
  /\ VFloat FNaN <> VDict [("raw_response", VStr "NaN")]
  /\ valid_json "[[[[" = false
  /\ process_item (scripted [Completed nested_completion]) 3 sample_digits
       (mkService "sk-test") "Analyze: Great product" ["sentiment"] "gpt-4o-mini" fresh_world
     = (Raise RecursionError,
        log_request (build_request "Analyze: Great product" ["sentiment"] "gpt-4o-mini")
          fresh_world).
Proof.
  split; [vm_compute; reflexivity|]. split; [vm_compute; reflexivity|].
  split; [discriminate|]. split; vm_compute; reflexivity.
Qed.

Lemma C7_witness :
  estimated_cost (session (snd (process_dataframe as_written (scripted two_equal_replies) sample_depth sample_digits review_table [sentiment_step; summary_step] true fresh_world)))
  = estimate_cost (fst (total_tokens (session (snd (process_dataframe as_written (scripted two_equal_replies) sample_depth sample_digits review_table [sentiment_step; summary_step] true fresh_world)))))
                  (snd (total_tokens (session (snd (process_dataframe as_written (scripted two_equal_replies) sample_depth sample_digits review_table [sentiment_step; summary_step] true fresh_world)))))
                  (step_model sentiment_step).
Proof.
  eapply (C7_cost_uses_first_step_model as_written (scripted two_equal_replies) sample_depth sample_digits
            review_table sentiment_step [summary_step] true fresh_world).
  - exists "s"%char, "k-test". reflexivity.
  - vm_compute. reflexivity.
Defined.

(** C7, the claim as written fails: with a [gpt-4o-mini] step followed by a
    [gpt-4o] step and totals of 1000 and 1000 tokens, the stored cost is the
    one at the rates of the first step, not of the last. *)
Lemma C7_counterexample :
  total_tokens (session (snd (process_dataframe as_written (scripted two_equal_replies) sample_depth sample_digits review_table [sentiment_step; summary_step] true fresh_world))) = (1000, 1000)
  /\ estimated_cost (session (snd (process_dataframe as_written (scripted two_equal_replies) sample_depth sample_digits review_table [sentiment_step; summary_step] true fresh_world))) = estimate_cost 1000 1000 "gpt-4o-mini"
  /\ PrimFloat.eqb (estimated_cost (session (snd (process_dataframe as_written (scripted two_equal_replies) sample_depth sample_digits review_table [sentiment_step; summary_step] true fresh_world))))
                   (estimate_cost 1000 1000 (step_model summary_step)) = false
  /\ estimated_cost (session (snd (process_dataframe as_written (scripted two_equal_replies) sample_depth sample_digits review_table [sentiment_step; summary_step] true fresh_world)))
     <> estimate_cost 1000 1000 (step_model summary_step).
Proof.
  repeat split; try (vm_compute; reflexivity).
  intros H.
  apply (f_equal (fun x => PrimFloat.eqb x (estimate_cost 1000 1000 (step_model summary_step))))
    in H.
  vm_compute in H. discriminate H.
Qed.

Lemma C8_witness :
  estimate_cost 1000 1000 "gpt-4o"
  = PrimFloat.add (PrimFloat.mul (div_1000 1000) (input_rate "gpt-4o"))
                  (PrimFloat.mul (div_1000 1000) (output_rate "gpt-4o")).
Proof.
  apply (C8_estimate_cost_is_the_rounded_linear_formula 1000 1000 "gpt-4o").
  - split; [discriminate | reflexivity].
  - split; [discriminate | reflexivity].
Defined.

(** C8, the claim as written fails: in binary64 arithmetic the cost of 1000
    and 1000 tokens at [gpt-4o-mini] is not the double written 0.00075;
    Python's [==] between the two is false. *)
Lemma C8_counterexample :
  PrimFloat.eqb (estimate_cost 1000 1000 "gpt-4o-mini") 0.00075%float = false
  /\ estimate_cost 1000 1000 "gpt-4o-mini" <> 0.00075%float.
Proof.
  split; [vm_compute; reflexivity|].
  intros H. apply (f_equal (fun x => PrimFloat.eqb x 0.00075%float)) in H.
  vm_compute in H. discriminate H.
Qed.

Lemma C9_witness :
  exists r',
    rows (mkDataFrame ["CustomerReview"; "AI_sentiment"]
            [[("CustomerReview", VStr "Great product"); ("AI_sentiment", VStr "positive")]])
      !! 0%nat = Some r'
    /\ dict_get r' "CustomerReview" = Some (VStr "Great product").
Proof.
  destruct (C9_columns_without_the_prefix_are_kept as_written
              (scripted [reply (json_object1 "sentiment" "positive") 10 5 "gpt-4o-mini"]) sample_depth sample_digits
              labelled_table [sentiment_step] true fresh_world (snd (process_dataframe as_written (scripted [reply (json_object1 "sentiment" "positive") 10 5 "gpt-4o-mini"]) sample_depth sample_digits labelled_table [sentiment_step] true fresh_world))
              (mkDataFrame ["CustomerReview"; "AI_sentiment"]
                 [[("CustomerReview", VStr "Great product");
                   ("AI_sentiment", VStr "positive")]]))
    as (_ & _ & Hcells).
  - vm_compute. reflexivity.
  - apply (Hcells 0%nat
             [("CustomerReview", VStr "Great product"); ("AI_sentiment", VStr "checked by hand")]
             "CustomerReview"); reflexivity.
Defined.

(** C9, the claim as written fails: a column of the input table that is
    itself named [AI_sentiment] is overwritten by the field [sentiment] of
    the reply. *)
Lemma C9_counterexample :
  In "AI_sentiment" (columns labelled_table)
  /\ (exists r, rows labelled_table !! 0%nat = Some r
                /\ dict_get r "AI_sentiment" = Some (VStr "checked by hand"))
  /\ exists df' w' r',
       (process_dataframe as_written (scripted [reply (json_object1 "sentiment" "positive") 10 5 "gpt-4o-mini"]) sample_depth sample_digits labelled_table [sentiment_step] true fresh_world) = (Ok df', w')
       /\ rows df' !! 0%nat = Some r'
       /\ dict_get r' "AI_sentiment" = Some (VStr "positive").
Proof.
  split; [right; left; reflexivity|]. split.
  - eexists. split; reflexivity.
  - eexists _, _, _. split; [vm_compute; reflexivity|]. split; reflexivity.
Qed.

Lemma C10_witness :
  process_dataframe as_written (scripted two_replies) sample_depth sample_digits review_table [sentiment_step] false
    world_without_key
  = (Ok review_table,
     mkWorld None fresh_session [] ["OPENAI_API_KEY not found in environment"]).
Proof.
  apply (C10_missing_credential_returns_input_table as_written (scripted two_replies) sample_depth sample_digits
           review_table [sentiment_step] false world_without_key).
  left. reflexivity.
Defined.

(** ** The text functions and the decoder on samples *)

Example str_of_int_examples :
  str_of_int 1000 = "1000" /\ str_of_int (-5) = "-5" /\ str_of_int 0 = "0".
Proof. repeat split; reflexivity. Qed.

Example split_strip_example :
  map strip (split_comma "sentiment, keyPoints ,") = ["sentiment"; "keyPoints"; EmptyString].
Proof. reflexivity. Qed.

Example findall_example :
  findall_from 0 "a {@x} {{@y_1}} {@} {@z {@x}" = ["x"; "y_1"; "x"].
Proof. reflexivity. Qed.

Example replace_example :
  str_replace "aaa" "aa" "b" = "ba" /\ str_replace "abc" EmptyString "-" = "-a-b-c-".
Proof. split; reflexivity. Qed.

Example json_examples :
  json_loads sample_depth sample_digits "not json" = JSONDecodeError /\
  json_loads sample_depth sample_digits (" {" +:+ quoted "a" +:+ ": 1, " +:+ quoted "b" +:+ ": [true, null, "
              +:+ quoted "x\n" +:+ "], " +:+ quoted "a" +:+ ": -2.5e3} ")
    = Loaded (VDict [("a", VFloat (FLit "-2.5e3"));
                     ("b", VList [VBool true; VNone; VStr (String "x" (String (ascii_of_N 10) EmptyString))])]) /\
  json_loads sample_depth sample_digits "[1,]" = JSONDecodeError /\ json_loads sample_depth sample_digits "01" = JSONDecodeError /\
  json_loads sample_depth sample_digits "1." = JSONDecodeError /\ json_loads sample_depth sample_digits "NaN" = Loaded (VFloat FNaN) /\
  json_loads sample_depth sample_digits ("{" +:+ quoted "a" +:+ ":1,}") = JSONDecodeError /\
  json_loads sample_depth sample_digits "-" = JSONDecodeError /\
  json_loads sample_depth sample_digits (quoted "\u00e9") = Loaded (VStr (String (ascii_of_N 233) EmptyString)) /\
  json_loads sample_depth sample_digits (quoted "\u20ac") = Unmodelled /\
  json_loads sample_depth sample_digits "1e5" = Loaded (VFloat (FLit "1e5")) /\
  json_loads sample_depth sample_digits EmptyString = JSONDecodeError /\ json_loads sample_depth sample_digits "{}" = Loaded (VDict []) /\
  json_loads sample_depth sample_digits "-0" = Loaded (VInt 0) /\ json_loads sample_depth sample_digits " [ ] " = Loaded (VList []).
Proof. repeat split; vm_compute; reflexivity. Qed.

(** The limits of the interpreter and the texts beyond the character model:
    nesting deeper than the decoder is left, an integer of more digits than
    [int] converts, and a syntax error after an escape above 255. *)
Example json_limit_examples :
  json_loads 3 sample_digits "[[[[" = LoadsRecursionError /\
  json_loads 3 sample_digits "[[[1]]]" = Loaded (VList [VList [VList [VInt 1]]]) /\
  json_loads 3 sample_digits "[[[1" = JSONDecodeError /\
  json_loads sample_depth 640 (long_integer 641)
  = LoadsValueError (too_many_digits 640 641) /\
  json_loads sample_depth 640 ("-" +:+ long_integer 640)
  = Loaded (VInt (- digits_value 0 (long_integer 640))) /\
  json_loads sample_depth 0 (long_integer 641)
  = Loaded (VInt (digits_value 0 (long_integer 641))) /\
  json_loads sample_depth 640 (long_integer 641 +:+ ".5")
  = Loaded (VFloat (FLit (long_integer 641 +:+ ".5"))) /\
  json_loads sample_depth sample_digits (quoted "\u20ac" +:+ "x") = JSONDecodeError /\
  valid_json "[[[[" = false /\ valid_json "[[[[1]]]]" = true /\
  valid_json "Infinity" = false /\ valid_json "123456" = true.
Proof. vm_compute. repeat split. Qed.

(** ** The further properties at concrete inputs *)

Lemma X1_witness :
  In "CustomerReview" (extract_placeholders "Analyze: {@CustomerReview} {@}").
Proof.
  apply (X1_extract_placeholders_finds_exactly_the_placeholders
           "Analyze: {@CustomerReview} {@}" "CustomerReview").
  split; reflexivity.
Defined.

Lemma X2_witness :
  replace_placeholders as_written "Summarize the review" review_row_0
  = "Summarize the review".
Proof.
  apply (X2_prompt_without_brace_is_unchanged as_written). reflexivity.
Defined.

Lemma X3_witness :
  init None world_without_key
  = (Raise (ValueError "OPENAI_API_KEY not found in environment"), world_without_key).
Proof.
  destruct (X3_service_key_comes_from_argument_then_environment world_without_key)
    as (_ & _ & H & _).
  apply H; left; reflexivity.
Defined.

Lemma X4_witness :
  scripted [Failed "RateLimitError"] (request_log fresh_world)
    (build_request "Analyze: Great product" ["sentiment"] "gpt-4o-mini")
  = Failed "RateLimitError".
Proof.
  destruct (X4_process_item_makes_one_call_and_reports_usage
              (scripted [Failed "RateLimitError"]) sample_depth sample_digits
              (mkService "sk-test")
              "Analyze: Great product" ["sentiment"] "gpt-4o-mini" fresh_world
              (log_request
                 (build_request "Analyze: Great product" ["sentiment"] "gpt-4o-mini")
                 fresh_world)
              (Raise (APIError "RateLimitError")) eq_refl)
    as [_ [(msg & E & H)|(c & H & _)]].
  - injection E as <-. exact H.
  - discriminate H.
Defined.

Lemma X5_witness :
  run_step as_written (scripted [reply "[1, 2]" 10 5 "gpt-4o-mini"]) sample_depth sample_digits (mkService "sk-test") 0
    (mkLocals review_table 0 0 review_row_0) sentiment_step fresh_world
  = (Raise AttributeError,
     log_request (step_request as_written sentiment_step review_row_0) fresh_world).
Proof.
  apply (X5_reply_that_is_not_an_object_raises as_written
           (scripted [reply "[1, 2]" 10 5 "gpt-4o-mini"]) sample_depth sample_digits (mkService "sk-test") 0
           (mkLocals review_table 0 0 review_row_0) sentiment_step fresh_world
           (log_request (step_request as_written sentiment_step review_row_0) fresh_world)
           (mkProcessingResult (VList [VInt 1; VInt 2]) 10 5 15 "gpt-4o-mini")).
  - reflexivity.
  - vm_compute. reflexivity.
  - intros d H. discriminate H.
Defined.

Lemma X6_witness :
  process_dataframe as_written (scripted []) sample_depth sample_digits review_table [blank_step; default_step] true
    fresh_world
  = (Ok review_table, mkWorld (Some "sk-test") (mkSession (0, 0) 0%float) [] []).
Proof.
  apply (X6_run_of_skipped_steps_returns_the_table as_written (scripted []) sample_depth sample_digits review_table
           [blank_step; default_step] true fresh_world).
  - exists "s"%char, "k-test". reflexivity.
  - repeat constructor.
  - intros _ H. discriminate H.
Defined.

Lemma X7_witness :
  exists added,
    [step_request as_written sentiment_step review_row_0;
     step_request as_written sentiment_step review_row_1] = [] ++ added
    /\ length added = (2 * active_steps [sentiment_step; blank_step])%nat
    /\ (30, 12) = usage_from
                    (scripted [reply (json_object1 "sentiment" "positive") 10 5 "gpt-4o-mini";
                               reply (json_object1 "sentiment" "negative") 20 7 "gpt-4o-mini"])
                    [] added.
Proof.
  apply (X7_session_totals_are_the_reported_usage as_written
           (scripted [reply (json_object1 "sentiment" "positive") 10 5 "gpt-4o-mini";
                      reply (json_object1 "sentiment" "negative") 20 7 "gpt-4o-mini"]) sample_depth sample_digits
           review_table [sentiment_step; blank_step] false fresh_world
           (mkWorld (Some "sk-test")
              (mkSession (30, 12) (estimate_cost 30 12 "gpt-4o-mini"))
              [step_request as_written sentiment_step review_row_0;
               step_request as_written sentiment_step review_row_1] [])
           (mkDataFrame ["CustomerReview"; "AI_sentiment"]
              [[("CustomerReview", VStr "Great product"); ("AI_sentiment", VStr "positive")];
               [("CustomerReview", VStr "Too slow"); ("AI_sentiment", VStr "negative")]])).
  - exists "s"%char, "k-test". reflexivity.
  - vm_compute. reflexivity.
Defined.

Lemma X8_witness :
  S (length (remove_processing_step 0 [sentiment_step; summary_step])) = 2%nat
  /\ (forall j : nat, (j < Z.to_nat 0)%nat ->
        remove_processing_step 0 [sentiment_step; summary_step] !! j
        = [sentiment_step; summary_step] !! j)
  /\ (forall j : nat, (Z.to_nat 0 <= j)%nat ->
        remove_processing_step 0 [sentiment_step; summary_step] !! j
        = [sentiment_step; summary_step] !! S j).
Proof.
  apply (X8_add_then_remove_restores_the_steps [sentiment_step; summary_step]).
  split; [discriminate | reflexivity].
Defined.

Lemma X10_witness :
  exists r',
    rows (mkDataFrame ["CustomerReview"; "AI_sentiment"]
            [[("CustomerReview", VStr "Great product"); ("AI_sentiment", VStr "positive")];
             [("CustomerReview", VStr "Too slow"); ("AI_sentiment", NaN)]]) !! 1%nat
    = Some r'
    /\ (forall c, c ∈ columns review_table -> dict_get r' c = dict_get review_row_1 c)
    /\ (forall c, c ∈ ["CustomerReview"; "AI_sentiment"] -> c ∉ columns review_table ->
                  dict_get r' c = Some NaN).
Proof.
  apply (X10_preview_writes_only_the_first_row as_written
           (scripted [reply (json_object1 "sentiment" "positive") 10 5 "gpt-4o-mini"])
           sample_depth sample_digits
           review_table [sentiment_step] fresh_world
           (mkWorld (Some "sk-test") (mkSession (10, 5) (estimate_cost 10 5 "gpt-4o-mini"))
              [step_request as_written sentiment_step review_row_0] [])).
  - vm_compute. reflexivity.
  - discriminate.
  - reflexivity.
Defined.

Lemma X11_witness :
  cell_at (result_df first_row_after_sentiment) 0 "AI_sentiment" = Some (VStr "positive")
  /\ "AI_sentiment" ∈ columns (result_df first_row_after_sentiment).
Proof.
  assert (Hrun : run_step as_written (scripted two_replies) sample_depth sample_digits
                   (mkService "sk-test") 0 first_row_locals sentiment_step fresh_world
                 = (Ok first_row_after_sentiment,
                    log_request (step_request as_written sentiment_step review_row_0)
                      fresh_world))
    by (vm_compute; reflexivity).
  destruct (X11_step_writes_the_text_of_each_field as_written (scripted two_replies)
              sample_depth sample_digits (mkService "sk-test") 0 first_row_locals
              first_row_after_sentiment sentiment_step fresh_world _ eq_refl
              ltac:(repeat constructor) eq_refl Hrun)
    as (result & d & Hp & Hd & Hcells).
  vm_compute in Hp. injection Hp as <-. injection Hd as <-.
  apply (Hcells "sentiment" (VStr "positive")). reflexivity.
Defined.

Lemma X12_witness :
  let loc' :=
    mkLocals
      (mkDataFrame ["CustomerReview"; "AI_raw_response"]
         [[("CustomerReview", VStr "Great product"); ("AI_raw_response", NaN)];
          [("CustomerReview", VStr "Too slow"); ("AI_raw_response", VStr "not json")]])
      12 3 [("CustomerReview", VStr "Too slow"); ("AI_raw_response", VStr "not json")] in
  cell_at (result_df loc') 1 "AI_raw_response" = Some (VStr "not json")
  /\ dict_get (row_data loc') "AI_raw_response" = Some (VStr "not json").
Proof.
  intros loc'.
  destruct (X12_unparsable_reply_lands_in_raw_response_column as_written
              (scripted [Completed not_json_completion]) sample_depth sample_digits
              (mkService "sk-test") 1 (mkLocals review_table 0 0 review_row_1) loc'
              sentiment_step fresh_world
              (log_request (step_request as_written sentiment_step review_row_1) fresh_world)
              not_json_completion)
    as (_ & Hcell & _ & Hrow & _).
  - reflexivity.
  - repeat constructor.
  - reflexivity.
  - reflexivity.
  - vm_compute. reflexivity.
  - vm_compute. reflexivity.
  - split; [exact Hcell | exact Hrow].
Defined.

Lemma X13_witness :
  has_char "," "keyPoints" = false
  /\ lstrip "keyPoints" = "keyPoints" /\ rstrip "keyPoints" = "keyPoints".
Proof.
  apply (X13_output_fields_are_split_and_stripped "sentiment, keyPoints ,").
  right. left. reflexivity.
Defined.
